(** * Lianjia rent crawler: partition walker, URL mutators and retry middlewares

    A shallow embedding of [lianjia/spiders/rent_spider.py] and
    [lianjia/middlewares.py].  Python values that flow through the request
    [meta] dictionary are kept dynamically typed ([pyval]); generators and
    handlers run in a small trace-and-exception monad ([eff]) whose trace
    records every logger call and every yielded request in program order. *)

From Stdlib Require Import ZArith Ascii String List Lia.
From stdpp Require Import gmap strings list pretty.

Local Open Scope Z_scope.

(** ** Python runtime fragment *)

Module Py.

(** Values stored in [meta] dictionaries and formatted by f-strings. *)
Inductive pyval :=
| PNone
| PInt (z : Z)
| PStr (s : string).

#[global] Instance pyval_eq_dec : EqDecision pyval.
Proof. solve_decision. Defined.

(** [f"{v}"] *)
Definition py_str (v : pyval) : string :=
  match v with
  | PNone => "None"
  | PInt z => pretty z
  | PStr s => s
  end.

Inductive exn :=
| KeyError (key : string)
| ValueError
| TypeError
| UnicodeDecodeError
| IgnoreRequest (msg : string).

Inductive loglevel := INFO | WARNING | ERROR.

Inductive result (A : Type) :=
| Ret (a : A)
| Raise (e : exn).
Arguments Ret {A} a.
Arguments Raise {A} e.

Section Effects.
(** [E] is the type of trace entries. *)
Context {E : Type}.

Definition eff (A : Type) : Type := list E * result A.

Definition ret {A} (a : A) : eff A := ([], Ret a).

Definition raise {A} (e : exn) : eff A := ([], Raise e).

Definition emit (e : E) : eff unit := ([e], Ret tt).

Definition bind {A B} (m : eff A) (k : A -> eff B) : eff B :=
  match m with
  | (t, Ret a) => let '(t', r) := k a in (t ++ t', r)
  | (t, Raise e) => (t, Raise e)
  end.

(** [try: m  except <handled>: handler] *)
Definition try_except {A} (m : eff A) (handled : exn -> bool)
    (handler : eff A) : eff A :=
  match m with
  | (t, Raise e) =>
      if handled e then let '(t', r) := handler in (t ++ t', r)
      else (t, Raise e)
  | _ => m
  end.

(** [for x in xs: body x] *)
Fixpoint for_each {A} (xs : list A) (body : A -> eff unit) : eff unit :=
  match xs with
  | [] => ret tt
  | x :: xs' => bind (body x) (fun _ => for_each xs' body)
  end.
End Effects.
Arguments eff E A : clear implicits.

(** [d[key]] on a dictionary entry that may be absent. *)
Definition getitem {E A} (key : string) (o : option A) : eff E A :=
  match o with
  | Some a => ret a
  | None => raise (KeyError key)
  end.

(** [d.get(key, default)] *)
Definition dict_get (d : gmap string pyval) (key : string) (default : pyval)
    : pyval :=
  match d !! key with
  | Some v => v
  | None => default
  end.

(** [range(a, b)] *)
Definition py_range (a b : Z) : list Z := seqZ a (b - a).

(** [sub in s] on strings. *)
Fixpoint str_contains (sub s : string) : bool :=
  String.prefix sub s ||
  match s with
  | EmptyString => false
  | String _ s' => str_contains sub s'
  end.

(** Pure part of [s.split(sep, 1)[0]]: the text before the first
    occurrence of [sep], or all of [s] when [sep] does not occur. *)
Fixpoint text_before (sep s : string) : string :=
  if String.prefix sep s then EmptyString
  else match s with
       | EmptyString => EmptyString
       | String c s' => String c (text_before sep s')
       end.

(** [s.split(sep, 1)[0]]; an empty separator raises [ValueError]. *)
Definition split1_head {E} (sep s : string) : eff E string :=
  match sep with
  | EmptyString => raise ValueError
  | _ => ret (text_before sep s)
  end.

(** *** [int(value)] for the values an XPath [.get()] can hand over.
    Strings are read in base 10: surrounding whitespace is stripped, one
    sign is allowed, and single underscores may separate digits.  Text is
    kept as bytes, so of the characters [int] accepts only the ASCII
    digits and the ASCII whitespace (tab to carriage return, the four
    separators 28 to 31, and space) are recognised; the interpreter's cap
    on the number of digits, a [ValueError] as well, is left out. *)

Definition is_space (c : ascii) : bool :=
  let code := N_of_ascii c in
  (code =? 32)%N || ((9 <=? code)%N && (code <=? 13)%N)
  || ((28 <=? code)%N && (code <=? 31)%N).

Definition digit_of (c : ascii) : option Z :=
  let code := N_of_ascii c in
  if ((48 <=? code) && (code <=? 57))%N then Some (Z.of_N code - 48)
  else None.

Fixpoint lstrip (s : string) : string :=
  match s with
  | String c s' => if is_space c then lstrip s' else s
  | EmptyString => EmptyString
  end.

(** Drops trailing whitespace; [None] stands for an all-blank string. *)
Fixpoint rstrip_aux (s : string) : option string :=
  match s with
  | EmptyString => None
  | String c s' =>
      match rstrip_aux s' with
      | Some r => Some (String c r)
      | None => if is_space c then None else Some (String c EmptyString)
      end
  end.

Definition strip (s : string) : string :=
  match rstrip_aux (lstrip s) with
  | Some r => r
  | None => EmptyString
  end.

(** Digits with optional single underscores between them;
    [after_digit] tells whether the previous character was a digit. *)
Fixpoint int_digits (acc : Z) (after_digit : bool) (s : string) : option Z :=
  match s with
  | EmptyString => if after_digit then Some acc else None
  | String c s' =>
      match digit_of c with
      | Some d => int_digits (10 * acc + d) true s'
      | None =>
          if Ascii.eqb c "_" && after_digit then int_digits acc false s'
          else None
      end
  end.

Definition int_of_string (s : string) : option Z :=
  match strip s with
  | String "-" ds => Z.opp <$> int_digits 0 false ds
  | String "+" ds => int_digits 0 false ds
  | ds => int_digits 0 false ds
  end.

Definition py_int {E} (v : pyval) : eff E Z :=
  match v with
  | PNone => raise TypeError
  | PInt z => ret z
  | PStr s =>
      match int_of_string s with
      | Some z => ret z
      | None => raise ValueError
      end
  end.

(** [v + 1], [v >= n] and [v < n] against an integer; a non-integer left
    operand raises [TypeError]. *)
Definition py_succ {E} (v : pyval) : eff E Z :=
  match v with
  | PInt z => ret (z + 1)
  | _ => raise TypeError
  end.

Definition py_ge {E} (v : pyval) (n : Z) : eff E bool :=
  match v with
  | PInt z => ret (n <=? z)
  | _ => raise TypeError
  end.

Definition py_lt {E} (v : pyval) (n : Z) : eff E bool :=
  match v with
  | PInt z => ret (z <? n)
  | _ => raise TypeError
  end.

(** *** [bytes.decode()] (strict UTF-8).  Text is kept as its UTF-8
    bytes, so decoding a well-formed byte string returns it as it is. *)

Definition in_range (lo hi b : N) : bool := ((lo <=? b) && (b <=? hi))%N.

(** Ranges the bytes after lead byte [b] must fall in; [None] for a byte
    that cannot start a sequence. *)
Definition utf8_lead (b : N) : option (list (N * N)) :=
  let c := (128, 191)%N in
  if in_range 0 127 b then Some []
  else if in_range 194 223 b then Some [c]
  else if (b =? 224)%N then Some [(160, 191)%N; c]
  else if in_range 225 236 b || in_range 238 239 b then Some [c; c]
  else if (b =? 237)%N then Some [(128, 159)%N; c]
  else if (b =? 240)%N then Some [(144, 191)%N; c; c]
  else if in_range 241 243 b then Some [c; c; c]
  else if (b =? 244)%N then Some [(128, 143)%N; c; c]
  else None.

Fixpoint utf8_ok (pending : list (N * N)) (bs : list N) : bool :=
  match bs with
  | [] => match pending with [] => true | _ => false end
  | b :: bs' =>
      match pending with
      | (lo, hi) :: pending' => in_range lo hi b && utf8_ok pending' bs'
      | [] =>
          match utf8_lead b with
          | Some pending' => utf8_ok pending' bs'
          | None => false
          end
      end
  end.

Definition bytes_decode {E} (b : string) : eff E string :=
  if utf8_ok [] (N_of_ascii <$> list_ascii_of_string b) then ret b
  else raise UnicodeDecodeError.

Notation "'let*' x ':=' m 'in' k" := (bind m (fun x => k))
  (at level 10, x pattern, m at level 99, k at level 200).
Notation "m ;; k" := (bind m (fun _ => k))
  (at level 100, k at level 200, right associativity).

End Py.

Import Py.

(** ** Regular expressions of the spider
    Every pattern of the spider is a fixed-length sequence of literal
    characters and character classes inside one capture group, so a
    pattern is a list of classes and [group(1)] is the whole match. *)

Module Re.

Definition charclass := list ascii.
Definition regex := list charclass.

Definition lit (s : string) : regex :=
  (fun c => [c]) <$> list_ascii_of_string s.

Definition cls (s : string) : regex := [list_ascii_of_string s].

Definition accepts (k : charclass) (c : ascii) : bool :=
  existsb (Ascii.eqb c) k.

(** The text matched by [re] at the very start of [s]. *)
Fixpoint match_at (re : regex) (s : string) : option string :=
  match re with
  | [] => Some EmptyString
  | k :: re' =>
      match s with
      | String c s' =>
          if accepts k c then String c <$> match_at re' s' else None
      | EmptyString => None
      end
  end.

(** [re.search(s)]: [group(1)] of the leftmost match, if any. *)
Fixpoint search (re : regex) (s : string) : option string :=
  match match_at re s with
  | Some m => Some m
  | None =>
      match s with
      | String _ s' => search re s'
      | EmptyString => None
      end
  end.

End Re.

(** ** Scrapy objects *)

Module Scrapy.

Inductive Callback := parse_level_cb | parse_data_cb.

Record Request := {
  url : string;
  callback : Callback;
  meta : gmap string pyval;
  dont_filter : bool;
}.

(** A response, seen through the queries the program makes on it. *)
Record Response := {
  resp_url : string;
  status : Z;
  (** raw value of the [Location] header, when the header is present *)
  header_location : option string;
  (** [response.meta] *)
  resp_meta : gmap string pyval;
  (** [response.xpath('//div[@class="content__pg"]/@data-totalpage').get()] *)
  xpath_totalpage : option string;
  (** [response.xpath('//span[@class="content__title--hl"]/text()').get()] *)
  xpath_title_hl : option string;
  (** the [getall()] of the area links *)
  xpath_area_hrefs : list string;
}.

Inductive event :=
| Log (level : loglevel) (msg : string)
| Yield (r : Request).

(** The result of an XPath [.get()] as a Python value. *)
Definition got (o : option string) : pyval :=
  match o with
  | Some s => PStr s
  | None => PNone
  end.

Definition log (level : loglevel) (msg : string) : eff event unit :=
  emit (Log level msg).

Definition yield (r : Request) : eff event unit := emit (Yield r).

(** [request.copy()]: a new request with the same attributes and a
    dictionary of its own for [meta]. *)
Definition copy (r : Request) : Request := r.

Definition set_meta (r : Request) (key : string) (v : pyval) : Request :=
  {| url := url r; callback := callback r;
     meta := <[key := v]> (meta r); dont_filter := dont_filter r |}.

Definition set_dont_filter (r : Request) (b : bool) : Request :=
  {| url := url r; callback := callback r;
     meta := meta r; dont_filter := b |}.

End Scrapy.

Import Scrapy.

(** ** [RentHouseSpider] (spiders/rent_spider.py) *)

Module RentHouseSpider.

(** One entry of [subdivision_hierarchy]; a key the entry does not have
    is [None]. *)
Record Subdivision := {
  sd_should_subdivide : option bool;
  sd_next_level : option string;
  sd_extract_urls : option (Response -> list string);
  sd_url_modifier : option (string -> pyval -> eff event string);
  sd_max_pages : option Z;
  sd_patterns : option Re.regex;
  sd_list : option (list string);
}.

(** [{}] *)
Definition empty_entry : Subdivision :=
  {| sd_should_subdivide := None; sd_next_level := None;
     sd_extract_urls := None; sd_url_modifier := None;
     sd_max_pages := None; sd_patterns := None; sd_list := None |}.

(** [subdivision_hierarchy.get(current_level, {})]: the keys of the
    table are strings, so any other value finds nothing. *)
Definition hierarchy_get (h : gmap string Subdivision) (level : pyval)
    : Subdivision :=
  match level with
  | PStr s => match h !! s with Some e => e | None => empty_entry end
  | _ => empty_entry
  end.

(** Truth value of [entry.get('should_subdivide')]. *)
Definition truthy (o : option bool) : bool :=
  match o with
  | Some b => b
  | None => false
  end.

Section Spider.
(** The class attribute [city]. *)
Variable city : string.

Definition max_price_pages : Z := if String.eqb city "sh" then 8 else 7.

Definition base_url : string := "https://" +:+ city +:+ ".lianjia.com".

Definition start_requests : eff event unit :=
  let start_url := base_url +:+ "/zufang/" in
  yield {| url := start_url; callback := parse_level_cb;
           meta := {["level" := PStr "city"]}; dont_filter := false |}.

Definition should_subdivide (total_pages total_houses : Z) : bool :=
  (total_pages =? 100) || (3000 <? total_houses).

Definition handle_pagination (base_url : string) (total_pages : Z)
    : eff event unit :=
  if negb (total_pages =? 0) then
    for_each (py_range 1 (total_pages + 1)) (fun page_number =>
      let paginated_url :=
        base_url +:+ "pg" +:+ py_str (PInt page_number) +:+ "/" in
      yield {| url := paginated_url; callback := parse_data_cb;
               meta := ∅; dont_filter := true |})
  else
    log WARNING (base_url +:+ " 没有找到分页数据").

Definition parse_integer (value : pyval) : eff event Z :=
  try_except (py_int value)
    (fun e => match e with ValueError | TypeError => true | _ => false end)
    (log WARNING ("无效的整数值: " +:+ py_str value) ;;
     ret 0).

Definition extract_total_pages (response : Response) : eff event Z :=
  let total_pages_str := got (xpath_totalpage response) in
  parse_integer total_pages_str.

Definition extract_total_houses (response : Response) : eff event Z :=
  let total_houses_str := got (xpath_title_hl response) in
  parse_integer total_houses_str.

Definition get_page_info (response : Response) : eff event (Z * Z) :=
  let* total_pages := extract_total_pages response in
  let* total_houses := extract_total_houses response in
  ret (total_pages, total_houses).

Definition extract_area_urls (response : Response) : list string :=
  xpath_area_hrefs response.

Definition get_price_regex : Re.regex :=
  if String.eqb city "sh" then Re.lit "rp" ++ Re.cls "12345678"
  else Re.lit "rp" ++ Re.cls "1234567".

Definition get_room_regex : Re.regex := Re.lit "l" ++ Re.cls "0123".

Definition get_direction_regex : Re.regex :=
  Re.lit "f10050000000" ++ Re.cls "15379".

Definition get_floor_regex : Re.regex :=
  Re.lit "lc20050000000" ++ Re.cls "123".

Definition get_room_type_list : list string :=
  (fun i => "l" +:+ py_str (PInt i)) <$> py_range 0 4.

Definition get_direction_list : list string :=
  ["f100500000001"; "f100500000005"; "f100500000003";
   "f100500000007"; "f100500000009"].

Definition get_floor_list : list string :=
  ["lc200500000003"; "lc200500000002"; "lc200500000001"].

Definition get_price_url (base_url : string) (page_number : pyval)
    : eff event string :=
  ret (base_url +:+ "rp" +:+ py_str page_number +:+ "/").

Definition get_room_url (base_url : string) (room_type : pyval)
    : eff event string :=
  let room_regex := get_room_regex in
  match Re.search room_regex base_url with
  | Some room_identifier =>
      let* head := split1_head room_identifier base_url in
      ret (head +:+ py_str room_type +:+ room_identifier +:+ "/")
  | None =>
      log WARNING ("在 URL 中未找到房型模式: " +:+ base_url) ;;
      ret base_url
  end.

Definition get_direction_url (base_url : string) (direction : pyval)
    : eff event string :=
  let direction_regex := get_direction_regex in
  match Re.search direction_regex base_url with
  | Some direction_identifier =>
      let* head := split1_head direction_identifier base_url in
      ret (head +:+ py_str direction +:+ direction_identifier +:+ "/")
  | None =>
      log WARNING ("在 URL 中未找到朝向标识符: " +:+ base_url) ;;
      ret base_url
  end.

Definition get_floor_url (base_url : string) (floor : pyval)
    : eff event string :=
  let floor_regex := get_floor_regex in
  match Re.search floor_regex base_url with
  | Some floor_identifier =>
      let* head := split1_head floor_identifier base_url in
      ret (head +:+ py_str floor +:+ floor_identifier +:+ "/")
  | None =>
      log WARNING ("在 URL 中未找到楼层模式: " +:+ base_url) ;;
      ret base_url
  end.

(** The dictionary literal built at every call of [parse_level]. *)
Definition subdivision_hierarchy (total_pages total_houses : Z)
    : gmap string Subdivision :=
  <["city" :=
      {| sd_should_subdivide := Some (should_subdivide total_pages total_houses);
         sd_next_level := Some "area";
         sd_extract_urls := Some extract_area_urls;
         sd_url_modifier := None; sd_max_pages := None;
         sd_patterns := None; sd_list := None |}]>
  (<["area" :=
      {| sd_should_subdivide := Some (should_subdivide total_pages total_houses);
         sd_next_level := Some "price";
         sd_extract_urls := None;
         sd_url_modifier := Some get_price_url;
         sd_max_pages := Some max_price_pages;
         sd_patterns := None; sd_list := None |}]>
  (<["price" :=
      {| sd_should_subdivide := Some (should_subdivide total_pages total_houses);
         sd_next_level := Some "room";
         sd_extract_urls := None;
         sd_url_modifier := Some get_room_url;
         sd_max_pages := None;
         sd_patterns := Some get_price_regex;
         sd_list := Some get_room_type_list |}]>
  (<["room" :=
      {| sd_should_subdivide := Some (should_subdivide total_pages total_houses);
         sd_next_level := Some "direction";
         sd_extract_urls := None;
         sd_url_modifier := Some get_direction_url;
         sd_max_pages := None;
         sd_patterns := Some get_room_regex;
         sd_list := Some get_direction_list |}]>
  (<["direction" :=
      {| sd_should_subdivide := Some (should_subdivide total_pages total_houses);
         sd_next_level := Some "floor";
         sd_extract_urls := None;
         sd_url_modifier := Some get_floor_url;
         sd_max_pages := None;
         sd_patterns := Some get_direction_regex;
         sd_list := Some get_floor_list |}]>
  (<["floor" :=
      {| sd_should_subdivide := Some false;
         sd_next_level := None; sd_extract_urls := None;
         sd_url_modifier := None; sd_max_pages := None;
         sd_patterns := None; sd_list := None |}]> ∅))))).

(** The request every subdivision branch yields. *)
Definition child_request (child_url next_level : string) : Request :=
  {| url := child_url; callback := parse_level_cb;
     meta := {["level" := PStr next_level]}; dont_filter := true |}.

Definition parse_level (response : Response) : eff event unit :=
  let current_level := dict_get (resp_meta response) "level" PNone in
  log INFO ("解析 " +:+ py_str current_level +:+ " 页: "
            +:+ resp_url response) ;;
  let* (total_pages, total_houses) := get_page_info response in
  let current_subdivision :=
    hierarchy_get (subdivision_hierarchy total_pages total_houses)
      current_level in
  if truthy (sd_should_subdivide current_subdivision) then
    let* next_level :=
      getitem "next_level" (sd_next_level current_subdivision) in
    match sd_extract_urls current_subdivision with
    | Some extract_urls =>
        let next_urls := extract_urls response in
        for_each next_urls (fun url =>
          yield (child_request (base_url +:+ url) next_level))
    | None =>
        match sd_url_modifier current_subdivision with
        | Some url_modifier =>
            if bool_decide (current_level = PStr "price") then
              let* max_pages :=
                getitem "max_pages" (sd_max_pages current_subdivision) in
              for_each (py_range 1 (max_pages + 1)) (fun i =>
                let* modified_url :=
                  url_modifier (resp_url response) (PInt i) in
                yield (child_request modified_url next_level))
            else
              let* items :=
                getitem "list" (sd_list current_subdivision) in
              for_each items (fun item =>
                let* modified_url :=
                  url_modifier (resp_url response) (PStr item) in
                yield (child_request modified_url next_level))
        | None => ret tt
        end
    end
  else
    handle_pagination (resp_url response) total_pages.

End Spider.

End RentHouseSpider.

Import RentHouseSpider.

(** ** Downloader middlewares (middlewares.py) *)

Module Middlewares.

(** What a response handler hands back to the engine. *)
Inductive handled :=
| Pass (response : Response)
| Resubmit (request : Request).

(** *** [RedirectRetryMiddleware] *)
Section RedirectRetry.
(** [self.max_retry_times], set by the inherited constructor. *)
Variable max_retry_times : Z.
(** The inherited [RetryMiddleware._retry]: the request to schedule,
    or [None]. *)
Variable _retry : Request -> string -> option Request.
(** [scrapy.utils.response.response_status_message] *)
Variable response_status_message : Z -> string.

(** [response.headers.get('Location', '').decode()]: header values are
    bytes, and so is the default that [Headers.get] hands back for a
    missing header. *)
Definition decode_location (response : Response) : eff event string :=
  bytes_decode (match header_location response with
                | Some raw => raw
                | None => EmptyString
                end).

Definition handle_redirect_response (request : Request)
    (response : Response) : eff event handled :=
  if (status response =? 301) || (status response =? 302) then
    let* redirect_url := decode_location response in
    log WARNING ("Redirect detected for " +:+ url request +:+ " to "
                 +:+ redirect_url) ;;
    let retry_count := dict_get (meta request) "retry_count" (PInt 0) in
    let max_retries := max_retry_times in
    let* exhausted := py_ge retry_count max_retries in
    if (exhausted : bool) then
      log ERROR ("Max retries reached for " +:+ url request
                 +:+ ". Giving up after redirect to " +:+ redirect_url
                 +:+ ".") ;;
      ret (Pass response)
    else
      let* next_count := py_succ retry_count in
      log INFO ("Retrying " +:+ url request +:+ " ("
                +:+ py_str (PInt next_count) +:+ "/"
                +:+ py_str (PInt max_retries)
                +:+ ") due to redirect to " +:+ redirect_url) ;;
      let retry_count := PInt next_count in
      let new_request := copy request in
      let new_request := set_meta new_request "retry_count" retry_count in
      match _retry new_request
              (response_status_message (status response)) with
      | Some retried => ret (Resubmit retried)
      | None => ret (Pass response)
      end
  else
    ret (Pass response).
End RedirectRetry.

(** *** [TotalCountRetryMiddleware] *)
Record TotalCountRetryMiddleware := {
  retry_attempts : Z;
  force_retry_urls : list string;
}.

(** [if total_count_str:] *)
Definition nonempty_text (o : option string) : bool :=
  match o with
  | Some (String _ _) => true
  | _ => false
  end.

Definition _retry_request (request : Request) (retry_attempts : pyval)
    : eff event handled :=
  let retry_req := copy request in
  let* next_attempts := py_succ retry_attempts in
  let retry_req := set_meta retry_req "retry_attempts" (PInt next_attempts) in
  let retry_req := set_dont_filter retry_req true in
  ret (Resubmit retry_req).

Definition handle_missing_total_count (self : TotalCountRetryMiddleware)
    (request : Request) (response : Response) : eff event handled :=
  if str_contains "captcha" (resp_url response) then
    log WARNING ("Captcha detected on " +:+ url request
                 +:+ ", skipping retries") ;;
    raise (IgnoreRequest ("Captcha detected for " +:+ url request))
  else
    let total_count_str := xpath_title_hl response in
    if nonempty_text total_count_str then ret (Pass response)
    else
      let retry_attempts_v :=
        dict_get (meta request) "retry_attempts" (PInt 0) in
      if bool_decide (url request ∈ force_retry_urls self) then
        let* shown := py_succ retry_attempts_v in
        log INFO ("Forcing retry for " +:+ url request
                  +:+ ", total_count missing (attempt "
                  +:+ py_str (PInt shown) +:+ ")") ;;
        _retry_request request retry_attempts_v
      else
        let* below := py_lt retry_attempts_v (retry_attempts self) in
        if (below : bool) then
          let* shown := py_succ retry_attempts_v in
          log INFO ("Retrying " +:+ url request
                    +:+ " due to missing total_count (attempt "
                    +:+ py_str (PInt shown) +:+ ")") ;;
          _retry_request request retry_attempts_v
        else
          log WARNING ("Giving up on " +:+ url request +:+ " after "
                       +:+ py_str retry_attempts_v
                       +:+ " retries due to missing total_count") ;;
          raise (IgnoreRequest ("Missing total_count_str after "
                                +:+ py_str retry_attempts_v +:+ " retries")).

End Middlewares.

Import Middlewares.

(** ** Vocabulary of the statements *)

Module Walk.

(** What the two count parsers log on a response, and the counts they
    return. *)
Definition summary_trace (response : Response) : list event :=
  (get_page_info response).1.

Definition summary_counts (response : Response) : Z * Z :=
  match (get_page_info response).2 with
  | Ret counts => counts
  | Raise _ => (0, 0)
  end.

(** [response.meta.get('level')] *)
Definition level_of (response : Response) : pyval :=
  dict_get (resp_meta response) "level" PNone.

(** The first line [parse_level] logs. *)
Definition level_banner (response : Response) : event :=
  Log INFO ("解析 " +:+ py_str (level_of response) +:+ " 页: "
            +:+ resp_url response).

(** No match of [re] starts inside [pre] when [pre] is followed by
    [rest]. *)
Fixpoint no_match_in (re : Re.regex) (pre rest : string) : Prop :=
  match pre with
  | EmptyString => True
  | String c pre' =>
      Re.match_at re (String c pre' +:+ rest) = None
      /\ no_match_in re pre' rest
  end.

(** The common shape of [get_room_url], [get_direction_url] and
    [get_floor_url]: pattern and warning text are what differs. *)
Definition insert_before_anchor (re : Re.regex) (warning : string)
    (base_url : string) (value : pyval) : eff event string :=
  match Re.search re base_url with
  | Some identifier =>
      let* head := split1_head identifier base_url in
      ret (head +:+ py_str value +:+ identifier +:+ "/")
  | None =>
      log WARNING (warning +:+ base_url) ;;
      ret base_url
  end.

(** The three mutators that search for an anchor, each with its pattern
    and with the value list the level table pairs it with. *)
Definition anchor_mutators
    : list ((string -> pyval -> eff event string) * Re.regex * list string) :=
  [(get_room_url, get_room_regex, get_room_type_list);
   (get_direction_url, get_direction_regex, get_direction_list);
   (get_floor_url, get_floor_regex, get_floor_list)].

(** As the specification words the anchor mutators: the first match of
    the pattern is replaced by the new value and the text around it is
    kept. *)
Definition claimed_replace_first
    (mutate : string -> pyval -> eff event string) (re : Re.regex) : Prop :=
  forall pre tok post value : string,
    no_match_in re pre (tok +:+ post) ->
    Re.match_at re (tok +:+ post) = Some tok ->
    mutate (pre +:+ tok +:+ post) (PStr value)
      = ([], Ret (pre +:+ value +:+ post)).

(** As the specification words it: mutating the result once more with
    the same value changes nothing. *)
Definition claimed_idempotent
    (mutate : string -> pyval -> eff event string) (re : Re.regex) : Prop :=
  forall (base_url value tok : string),
    Re.search re base_url = Some tok ->
    (let* once := mutate base_url (PStr value) in
     mutate once (PStr value))
      = mutate base_url (PStr value).

(** The first character of [v] is accepted by none of the classes. *)
Definition head_rejected (classes : Re.regex) (v : string) : bool :=
  match v with
  | String c _ => forallb (fun k => negb (Re.accepts k c)) classes
  | EmptyString => true
  end.

End Walk.

Import Walk.

(** ** Sample nodes and requests *)

Module Samples.

Definition node (node_url level : string) (totalpage title_hl : option string)
    : Response :=
  {| resp_url := node_url; status := 200; header_location := None;
     resp_meta := {["level" := PStr level]};
     xpath_totalpage := totalpage; xpath_title_hl := title_hl;
     xpath_area_hrefs := [] |}.

Definition area_node : Response :=
  node "https://tj.lianjia.com/zufang/heping/" "area"
    (Some "100") (Some "5217").

Definition price_node : Response :=
  node "https://tj.lianjia.com/zufang/heping/rp1/" "price"
    (Some "100") (Some "3180").

Definition room_node : Response :=
  node "https://tj.lianjia.com/zufang/heping/l0rp1/" "room"
    (Some "100") (Some "3050").

Definition direction_node : Response :=
  node "https://tj.lianjia.com/zufang/heping/f100500000001l0rp1/"
    "direction" (Some "100") (Some "3050").

Definition floor_node : Response :=
  node "https://tj.lianjia.com/zufang/heping/lc200500000001f100500000001l0rp1/"
    "floor" (Some "100") (Some "3050").

Definition small_node : Response :=
  node "https://tj.lianjia.com/zufang/hexi/" "area" (Some "3") (Some "75").

Definition city_request : Request :=
  {| url := "https://tj.lianjia.com/zufang/"; callback := parse_level_cb;
     meta := {["level" := PStr "city"]}; dont_filter := false |}.

(** A response to [city_request] with the given status and [Location]
    header and without the listing-count marker. *)
Definition reply (reply_url : string) (code : Z) (location : option string)
    : Response :=
  {| resp_url := reply_url; status := code; header_location := location;
     resp_meta := {["level" := PStr "city"]};
     xpath_totalpage := None; xpath_title_hl := None;
     xpath_area_hrefs := [] |}.

Definition redirect_302 : Response :=
  reply "https://tj.lianjia.com/zufang/" 302
    (Some "https://tj.lianjia.com/zufang/heping/").

Definition redirect_307 : Response :=
  reply "https://tj.lianjia.com/zufang/" 307
    (Some "https://tj.lianjia.com/zufang/heping/").

Definition blank_page : Response :=
  reply "https://tj.lianjia.com/zufang/" 200 None.

Definition captcha_page : Response :=
  reply "https://hip.lianjia.com/captcha?id=1" 200 None.

Definition captcha_302 : Response :=
  reply "https://hip.lianjia.com/captcha?id=1" 302
    (Some "https://hip.lianjia.com/captcha?id=2").

Definition budget_10 : TotalCountRetryMiddleware :=
  {| retry_attempts := 10; force_retry_urls := [] |}.

Definition forced_10 : TotalCountRetryMiddleware :=
  {| retry_attempts := 10;
     force_retry_urls := ["https://tj.lianjia.com/zufang/"] |}.

(** [city_request] after ten missing-count retries. *)
Definition tenth_retry : Request :=
  set_meta city_request "retry_attempts" (PInt 10).

(** A stand-in for the inherited [_retry] that always schedules the
    request it is given. *)
Definition always_retry (request : Request) (reason : string)
    : option Request := Some request.

(** A stand-in for [response_status_message]. *)
Definition status_message (code : Z) : string := pretty code.

End Samples.

Import Samples.

(** ** Scraped text
    [strip] and [split] work on Unicode whitespace, so the text nodes of a
    listing page are kept as lists of code points. *)

Module Text.

Definition text := list N.

(** The code points of an ASCII literal. *)
Definition lit (s : string) : text := N_of_ascii <$> list_ascii_of_string s.

Definition between (lo hi c : N) : bool := ((lo <=? c) && (c <=? hi))%N.

(** The characters [str.isspace] accepts. *)
Definition is_whitespace (c : N) : bool :=
  between 9 13 c || between 28 32 c || (c =? 133)%N || (c =? 160)%N
  || (c =? 5760)%N || between 8192 8202 c || between 8232 8233 c
  || (c =? 8239)%N || (c =? 8287)%N || (c =? 12288)%N.

(** [t.lstrip()] *)
Fixpoint lstrip (t : text) : text :=
  match t with
  | c :: t' => if is_whitespace c then lstrip t' else t
  | [] => []
  end.

(** [t.rstrip()] *)
Definition rstrip (t : text) : text := reverse (lstrip (reverse t)).

(** [t.strip()] *)
Definition strip (t : text) : text := rstrip (lstrip t).

(** [t.split()]: the maximal runs of non-whitespace characters;
    [word] holds the run being read, last character first. *)
Fixpoint split_from (word : text) (t : text) : list text :=
  match t with
  | [] => match word with [] => [] | _ => [reverse word] end
  | c :: t' =>
      if is_whitespace c then
        match word with
        | [] => split_from [] t'
        | _ => reverse word :: split_from [] t'
        end
      else split_from (c :: word) t'
  end.

Definition split (t : text) : list text := split_from [] t.

(** [sep.join(parts)] with the empty separator. *)
Definition join_empty (parts : list text) : text := concat parts.

(** [if t:] *)
Definition nonempty (t : text) : bool :=
  match t with
  | [] => false
  | _ => true
  end.

End Text.

(** ** Listing extraction ([parse_data] and its helpers) *)

Module Listing.

Import Text.

(** A [content__list--item] element, seen through the four queries the
    spider makes on it. *)
Record House := {
  (** [.get()] of the title link text *)
  title_text : option text;
  (** [.getall()] of the description text nodes *)
  des_texts : list text;
  (** [.getall()] of the tag texts *)
  bottom_texts : list text;
  (** [.get()] of the brand text *)
  brand_text : option text;
  (** [.get()] of the price text nodes *)
  price_text : option text;
}.

(** [RentHouseItem], every field assigned. *)
Record RentHouseItem := {
  title : text;
  info : list text;
  bottom : list text;
  source : text;
  price : text;
}.

(** A listing page: its URL and the item elements of its first list. *)
Record ListingPage := {
  page_url : string;
  houses : list House;
}.

Inductive data_event :=
| DataLog (level : loglevel) (msg : string)
| YieldItem (item : RentHouseItem).

(** [extract_text]; [found] is [house.xpath(xpath_expr).get()]. *)
Definition extract_text (found : option text) (default_value : text) : text :=
  match found with
  | Some t => if nonempty t then strip t else default_value
  | None => default_value
  end.

Definition kept_description (t : text) : bool :=
  nonempty (strip t)
  && negb (bool_decide (strip t ∈ [lit "-"; lit "/"])).

Definition extract_descriptions (house : House) : list text :=
  let descriptions := des_texts house in
  (fun t => join_empty (split t)) <$> filter kept_description descriptions.

Definition extract_bottom_info (house : House) : list text :=
  let bottom_info := bottom_texts house in
  match strip <$> filter (fun t => nonempty (strip t)) bottom_info with
  | [] => []
  | found => found
  end.

Definition make_item (house : House) : RentHouseItem :=
  {| title := extract_text (title_text house) (lit "N/A");
     info := extract_descriptions house;
     bottom := extract_bottom_info house;
     source := extract_text (brand_text house) (lit "N/A");
     price := extract_text (price_text house) (lit "N/A") |}.

Definition parse_data (response : ListingPage) : eff data_event unit :=
  emit (DataLog INFO ("从页面提取数据: " +:+ page_url response)) ;;
  for_each (houses response) (fun house =>
    let item := make_item house in
    emit (YieldItem item)).

End Listing.

(** ** The remaining middlewares *)

Module Egress.

(** Truth value of a [meta] entry; [False] and [True] are the integers 0
    and 1. *)
Definition py_truthy (v : pyval) : bool :=
  match v with
  | PNone => false
  | PInt z => negb (z =? 0)
  | PStr EmptyString => false
  | PStr _ => true
  end.

(** [random.choice(seq)]; [draw] stands for the generator's output and
    [None] for the [IndexError] an empty sequence gives. *)
Definition random_choice (draw : nat) (seq : list string) : option string :=
  match seq with
  | [] => None
  | _ => seq !! (draw mod length seq)%nat
  end.

(** *** [ProxyMiddleware] *)

(** A selection strategy; it may consume one draw of the generator. *)
Definition selector := nat -> Request -> option string.

Record ProxyMiddleware := {
  proxy_list : list string;
  proxy_selector : selector;
}.

Definition random_proxy (pool : list string) : selector :=
  fun draw request => random_choice draw pool.

Definition custom_proxy_selector (pool : list string) : selector :=
  fun draw request =>
    if str_contains "example.com" (url request)
    then Some "http://example_proxy:port"
    else random_choice draw pool.

Section Proxy.
(** The single entry of the built-in pool. *)
Variable default_proxy : string.

(** [__init__]: an absent or empty list, and an absent selector, give
    way to the defaults. *)
Definition new_proxy_middleware (proxy_list : option (list string))
    (proxy_selector : option selector) : ProxyMiddleware :=
  let pool :=
    match proxy_list with
    | Some (p :: ps) => p :: ps
    | _ => [default_proxy]
    end in
  {| proxy_list := pool;
     proxy_selector :=
       match proxy_selector with
       | Some chosen => chosen
       | None => random_proxy pool
       end |}.
End Proxy.

(** [handle_request_with_proxy]: the request after the call and the line
    logged; [None] when the selector raised. *)
Definition handle_request_with_proxy (self : ProxyMiddleware) (draw : nat)
    (request : Request) : option (eff event Request) :=
  match proxy_selector self draw request with
  | Some proxy =>
      Some (let request := set_meta request "proxy" (PStr proxy) in
            log INFO ("Using Proxy: " +:+ proxy) ;;
            ret request)
  | None => None
  end.

(** *** [CloseConnectionMiddleware] *)

Definition should_modify_connection (request : Request) : bool :=
  if str_contains "example.com" (url request) then true else false.

(** [modify_connection_header]; [headers] are the request's headers under
    their normalised names, handed back after the call. *)
Definition modify_connection_header (request : Request)
    (headers : gmap string string) : eff event (gmap string string) :=
  if str_contains "some_condition" (url request) then
    let headers := <["Connection" := "close"]> headers in
    log INFO ("Connection header set to 'close' for URL: " +:+ url request) ;;
    ret headers
  else if py_truthy (dict_get (meta request) "force_close" (PInt 0)) then
    let headers := <["Connection" := "close"]> headers in
    log INFO ("Connection header forcibly set to 'close' for URL: "
              +:+ url request) ;;
    ret headers
  else if should_modify_connection request then
    let headers := <["Connection" := "close"]> headers in
    log INFO ("Connection header set to 'close' by fallback logic for URL: "
              +:+ url request) ;;
    ret headers
  else ret headers.

(** *** [TotalCountRetryMiddleware.__init__] *)
Definition new_total_count_retry (retry_attempts : Z)
    (force_retry_urls : option (list string)) : TotalCountRetryMiddleware :=
  {| retry_attempts := retry_attempts;
     force_retry_urls :=
       match force_retry_urls with
       | Some (u :: us) => u :: us
       | _ => []
       end |}.

End Egress.

(** ** Repeated delivery
    A resubmitted request is fetched again; [rounds] follows a response
    handler while it keeps resubmitting, the same response coming back
    each time.  It returns the number of resubmissions and the response
    finally passed on, or [None] when [fuel] deliveries were not
    enough. *)

Module Rounds.

Fixpoint rounds (step : Request -> eff event handled) (fuel : nat)
    (request : Request) : eff event (nat * option Response) :=
  match fuel with
  | O => ret (O, None)
  | S fuel' =>
      let* outcome := step request in
      match outcome with
      | Pass response => ret (O, Some response)
      | Resubmit again =>
          let* (n, final) := rounds step fuel' again in
          ret (S n, final)
      end
  end.

End Rounds.

(** ** More sample inputs *)

Module MoreSamples.


(** A node at level [direction] whose URL already holds a floor token. *)
Definition floor_tagged_node : Response :=
  node "https://tj.lianjia.com/zufang/heping/lc200500000002f100500000001l0rp1/"
    "direction" (Some "100") (Some "3050").

(** A node whose request carried no [level] at all. *)
Definition untagged_node : Response :=
  {| resp_url := "https://tj.lianjia.com/zufang/heping/"; status := 200;
     header_location := None; resp_meta := ∅;
     xpath_totalpage := Some "2"; xpath_title_hl := Some "4000";
     xpath_area_hrefs := [] |}.

(** A 302 whose [Location] bytes are not UTF-8. *)
Definition garbled_302 : Response :=
  reply "https://tj.lianjia.com/zufang/" 302
    (Some (String (ascii_of_N 233) "tape")).

Definition unavailable_503 : Response :=
  reply "https://tj.lianjia.com/zufang/" 503 None.

(** A request whose redirect count was stored as text. *)
Definition mistyped_request : Request :=
  set_meta city_request "retry_count" (PStr "2").

End MoreSamples.

Import Listing Egress Rounds MoreSamples.

(** * Properties *)

(** ** The effect monad *)

Lemma bind_ret_l {E A B} (a : A) (k : A -> eff E B) : bind (ret a) k = k a.
Proof. unfold bind, ret. destruct (k a) as [t r]. reflexivity. Qed.

Lemma bind_trace {E A B} (t : list E) (a : A) (k : A -> eff E B) :
  bind (t, Ret a) k = (t ++ (k a).1, (k a).2).
Proof. unfold bind. destruct (k a) as [t' r]. reflexivity. Qed.

Lemma bind_raise {E A B} (t : list E) (e : exn) (k : A -> eff E B) :
  bind (t, Raise e) k = (t, Raise e).
Proof. reflexivity. Qed.

Lemma for_each_emit {E A} (f : A -> E) (xs : list A) :
  for_each xs (fun x => emit (f x)) = (f <$> xs, Ret tt).
Proof.
  induction xs as [|x xs IH]; [reflexivity|].
  cbn [for_each]. rewrite IH. reflexivity.
Qed.

(** A loop whose body logs/yields a fixed block of entries per item. *)
Lemma for_each_blocks {E A} (body : A -> eff E unit) (f : A -> list E)
    (xs : list A) :
  (forall x, body x = (f x, Ret tt)) ->
  for_each xs body = (concat (f <$> xs), Ret tt).
Proof.
  intros Hbody. induction xs as [|x xs IH]; [reflexivity|].
  cbn [for_each]. rewrite Hbody, IH. reflexivity.
Qed.

(** ** Summary counts *)

Lemma parse_integer_cases (value : pyval) :
  parse_integer value =
    match value with
    | PInt z => ([], Ret z)
    | PStr s =>
        match int_of_string s with
        | Some z => ([], Ret z)
        | None => ([Log WARNING ("无效的整数值: " +:+ s)], Ret 0)
        end
    | PNone => ([Log WARNING "无效的整数值: None"], Ret 0)
    end.
Proof.
  destruct value as [|z|s]; try reflexivity.
  unfold parse_integer, py_int. destruct (int_of_string s); reflexivity.
Qed.

Lemma parse_integer_returns (value : pyval) :
  exists t z, parse_integer value = (t, Ret z).
Proof.
  rewrite parse_integer_cases.
  destruct value as [|z|s]; [eauto..|]. destruct (int_of_string s); eauto.
Qed.

Lemma get_page_info_total (response : Response) :
  get_page_info response
    = (summary_trace response, Ret (summary_counts response)).
Proof.
  unfold summary_trace, summary_counts, get_page_info,
    extract_total_pages, extract_total_houses.
  destruct (parse_integer_returns (got (xpath_totalpage response)))
    as (t1 & z1 & ->).
  destruct (parse_integer_returns (got (xpath_title_hl response)))
    as (t2 & z2 & ->).
  reflexivity.
Qed.

(** ** The level table *)

Section Hierarchy.
Variable city : string.
Variables p h : Z.

Lemma entry_city :
  hierarchy_get (subdivision_hierarchy city p h) (PStr "city") =
    {| sd_should_subdivide := Some (should_subdivide p h);
       sd_next_level := Some "area";
       sd_extract_urls := Some extract_area_urls;
       sd_url_modifier := None; sd_max_pages := None;
       sd_patterns := None; sd_list := None |}.
Proof. reflexivity. Qed.

Lemma entry_area :
  hierarchy_get (subdivision_hierarchy city p h) (PStr "area") =
    {| sd_should_subdivide := Some (should_subdivide p h);
       sd_next_level := Some "price";
       sd_extract_urls := None;
       sd_url_modifier := Some (get_price_url);
       sd_max_pages := Some (max_price_pages city);
       sd_patterns := None; sd_list := None |}.
Proof. reflexivity. Qed.

Lemma entry_price :
  hierarchy_get (subdivision_hierarchy city p h) (PStr "price") =
    {| sd_should_subdivide := Some (should_subdivide p h);
       sd_next_level := Some "room";
       sd_extract_urls := None;
       sd_url_modifier := Some get_room_url;
       sd_max_pages := None;
       sd_patterns := Some (get_price_regex city);
       sd_list := Some get_room_type_list |}.
Proof. reflexivity. Qed.

Lemma entry_room :
  hierarchy_get (subdivision_hierarchy city p h) (PStr "room") =
    {| sd_should_subdivide := Some (should_subdivide p h);
       sd_next_level := Some "direction";
       sd_extract_urls := None;
       sd_url_modifier := Some get_direction_url;
       sd_max_pages := None;
       sd_patterns := Some get_room_regex;
       sd_list := Some get_direction_list |}.
Proof. reflexivity. Qed.

Lemma entry_direction :
  hierarchy_get (subdivision_hierarchy city p h) (PStr "direction") =
    {| sd_should_subdivide := Some (should_subdivide p h);
       sd_next_level := Some "floor";
       sd_extract_urls := None;
       sd_url_modifier := Some get_floor_url;
       sd_max_pages := None;
       sd_patterns := Some get_direction_regex;
       sd_list := Some get_floor_list |}.
Proof. reflexivity. Qed.

Lemma entry_floor :
  hierarchy_get (subdivision_hierarchy city p h) (PStr "floor") =
    {| sd_should_subdivide := Some false;
       sd_next_level := None; sd_extract_urls := None;
       sd_url_modifier := None; sd_max_pages := None;
       sd_patterns := None; sd_list := None |}.
Proof. reflexivity. Qed.
End Hierarchy.

(** ** Subdivision decision *)

(** Opens [parse_level] up to the point where the level entry is used. *)
Ltac enter_level response :=
  unfold parse_level, level_banner; fold (level_of response);
  rewrite get_page_info_total;
  destruct (summary_counts response) as [p h];
  unfold log, emit; rewrite !bind_trace; cbn beta iota; cbn [fst snd].

Lemma should_subdivide_true (total_pages total_houses : Z) :
  should_subdivide total_pages total_houses = true <->
  total_pages = 100 \/ total_houses > 3000.
Proof. unfold should_subdivide. rewrite orb_true_iff. lia. Qed.

(** When the level entry does not ask for subdivision, the walker hands
    the node's URL and page count to [handle_pagination]. *)
Lemma parse_level_paginates (city : string) (response : Response) :
  truthy (sd_should_subdivide
    (hierarchy_get
       (subdivision_hierarchy city (summary_counts response).1
          (summary_counts response).2)
       (level_of response))) = false ->
  parse_level city response =
    (level_banner response :: summary_trace response
       ++ (handle_pagination (resp_url response) (summary_counts response).1).1,
     (handle_pagination (resp_url response) (summary_counts response).1).2).
Proof.
  intros Hno. unfold parse_level. fold (level_of response).
  rewrite get_page_info_total.
  destruct (summary_counts response) as [p h].
  unfold log, emit. rewrite !bind_trace. cbn beta iota.
  cbn [fst snd] in Hno. rewrite Hno. reflexivity.
Qed.

(** C1: [should_subdivide] is true exactly when the page count is 100 or
    the listing count exceeds 3000; the [floor] entry of the level table
    never asks for subdivision, whatever the counts, so a response at level
    [floor] is paginated and no child partition is requested. *)
Theorem should_subdivide_rule_and_floor_terminal :
  (forall total_pages total_houses : Z,
     should_subdivide total_pages total_houses = true <->
     total_pages = 100 \/ total_houses > 3000)
  /\ (forall (city : string) (total_pages total_houses : Z),
        truthy (sd_should_subdivide
          (hierarchy_get (subdivision_hierarchy city total_pages total_houses)
             (PStr "floor"))) = false)
  /\ (forall (city : string) (response : Response),
        level_of response = PStr "floor" ->
        parse_level city response =
          (level_banner response :: summary_trace response
             ++ (handle_pagination (resp_url response)
                   (summary_counts response).1).1,
           (handle_pagination (resp_url response)
              (summary_counts response).1).2)).
Proof.
  split; [exact should_subdivide_true|]. split; [reflexivity|].
  intros city response Hlevel. apply parse_level_paginates.
  rewrite Hlevel. reflexivity.
Qed.

(** ** Strings *)

Lemma append_cons (c : ascii) (s t : string) :
  String c s +:+ t = String c (s +:+ t).
Proof. reflexivity. Qed.

Lemma append_assoc (s t u : string) : (s +:+ t) +:+ u = s +:+ t +:+ u.
Proof. induction s as [|c s IH]; [reflexivity|]. rewrite !append_cons, IH. reflexivity. Qed.

Lemma append_length (s t : string) :
  String.length (s +:+ t) = (String.length s + String.length t)%nat.
Proof. induction s as [|c s IH]; [reflexivity|]. rewrite append_cons. cbn [String.length]. rewrite IH. reflexivity. Qed.

Lemma append_grows (s t : string) : t <> EmptyString -> s +:+ t <> s.
Proof.
  intros Ht Heq. apply (f_equal String.length) in Heq.
  rewrite append_length in Heq. destruct t; [congruence|]. cbn in Heq. lia.
Qed.

(** ** Pagination *)

Lemma handle_pagination_pages (base_url : string) (total_pages : Z) :
  0 < total_pages ->
  handle_pagination base_url total_pages =
    ((fun page_number =>
        Yield {| url := base_url +:+ "pg" +:+ pretty page_number +:+ "/";
                 callback := parse_data_cb; meta := ∅;
                 dont_filter := true |}) <$> seqZ 1 total_pages,
     Ret tt).
Proof.
  intros Hpos. unfold handle_pagination, yield, py_range.
  destruct (Z.eqb_spec total_pages 0) as [->|_]; [lia|]. cbn [negb].
  replace (total_pages + 1 - 1) with total_pages by lia.
  apply for_each_emit.
Qed.

(** C8: with a positive page count [handle_pagination] yields exactly one
    request per page number 1..total_pages, in order, whose URL is the
    node's URL followed by [pg<number>/]; with a page count of 0 it yields
    nothing, logs one warning that starts with the node's URL, and returns
    normally.  A node whose level entry does not subdivide is handed to
    [handle_pagination] with its own URL and parsed page count. *)
Theorem handle_pagination_one_request_per_page :
  (forall (base_url : string) (total_pages : Z),
     0 < total_pages ->
     handle_pagination base_url total_pages =
       ((fun page_number =>
           Yield {| url := base_url +:+ "pg" +:+ pretty page_number +:+ "/";
                    callback := parse_data_cb; meta := ∅;
                    dont_filter := true |}) <$> seqZ 1 total_pages,
        Ret tt)
     /\ length (seqZ 1 total_pages) = Z.to_nat total_pages
     /\ (forall k : Z, k ∈ seqZ 1 total_pages <-> 1 <= k <= total_pages)
     /\ NoDup (seqZ 1 total_pages))
  /\ (forall base_url : string,
        handle_pagination base_url 0 =
          ([Log WARNING (base_url +:+ " 没有找到分页数据")], Ret tt))
  /\ (forall (city : string) (response : Response),
        truthy (sd_should_subdivide
          (hierarchy_get
             (subdivision_hierarchy city (summary_counts response).1
                (summary_counts response).2)
             (level_of response))) = false ->
        parse_level city response =
          (level_banner response :: summary_trace response
             ++ (handle_pagination (resp_url response)
                   (summary_counts response).1).1,
           (handle_pagination (resp_url response)
              (summary_counts response).1).2)).
Proof.
  split; [|split; [reflexivity | exact parse_level_paginates]].
  intros base_url total_pages Hpos.
  split; [|split; [apply length_seqZ|split; [|apply NoDup_seqZ]]].
  - apply handle_pagination_pages. exact Hpos.
  - intros k. rewrite elem_of_seqZ. lia.
Qed.

(** ** Integer parsing *)

(** C9: [parse_integer] returns an integer on every input and never
    raises: an integer or a well-formed numeral is returned as it is with
    nothing logged, a missing value or any other string gives 0 and one
    warning; hence reading the two summary counts of a response never
    raises either. *)
Theorem parse_integer_total :
  (forall value : pyval,
     parse_integer value =
       match value with
       | PInt z => ([], Ret z)
       | PStr s =>
           match int_of_string s with
           | Some z => ([], Ret z)
           | None => ([Log WARNING ("无效的整数值: " +:+ s)], Ret 0)
           end
       | PNone => ([Log WARNING "无效的整数值: None"], Ret 0)
       end)
  /\ (forall value : pyval, exists t z, parse_integer value = (t, Ret z))
  /\ (forall (value : pyval) (e : exn) (t : list event),
        parse_integer value <> (t, Raise e))
  /\ (forall response : Response,
        get_page_info response
          = (summary_trace response, Ret (summary_counts response))).
Proof.
  split; [exact parse_integer_cases|]. split; [exact parse_integer_returns|].
  split; [|exact get_page_info_total].
  intros value e t. destruct (parse_integer_returns value) as (t' & z & ->).
  discriminate.
Qed.

(** ** The price mutator *)

(** C10: [get_price_url] appends: for every URL and every band index the
    result is the URL followed by [rp], the decimal numeral of the index
    and a slash.  Nothing is searched for and nothing is logged, the result
    always differs from the input, and mutating the result again appends a
    second price token after the first. *)
Theorem get_price_url_appends (base_url : string) (page_number : Z) :
  get_price_url base_url (PInt page_number)
    = ([], Ret (base_url +:+ "rp" +:+ pretty page_number +:+ "/"))
  /\ base_url +:+ "rp" +:+ pretty page_number +:+ "/" <> base_url
  /\ (let* once := get_price_url base_url (PInt page_number) in
      get_price_url once (PInt page_number))
     = ([], Ret (base_url +:+ "rp" +:+ pretty page_number +:+ "/"
                 +:+ "rp" +:+ pretty page_number +:+ "/"))
  /\ (fun i => (get_price_url base_url (PInt i)).2) <$> seqZ 1 8
     = [Ret (base_url +:+ "rp1/"); Ret (base_url +:+ "rp2/");
        Ret (base_url +:+ "rp3/"); Ret (base_url +:+ "rp4/");
        Ret (base_url +:+ "rp5/"); Ret (base_url +:+ "rp6/");
        Ret (base_url +:+ "rp7/"); Ret (base_url +:+ "rp8/")].
Proof.
  repeat split.
  - apply append_grows. discriminate.
  - unfold get_price_url. rewrite bind_ret_l. cbn [py_str].
    rewrite !append_assoc. reflexivity.
Qed.

(** ** Pattern search *)

Lemma match_at_cons (k : Re.charclass) (re : Re.regex) (c : ascii) (s : string) :
  Re.match_at (k :: re) (String c s)
    = if Re.accepts k c then String c <$> Re.match_at re s else None.
Proof. reflexivity. Qed.

(** A match is a prefix of the text and does not depend on what follows. *)
Lemma match_at_prefix (re : Re.regex) (s m : string) :
  Re.match_at re s = Some m ->
  (exists post, s = m +:+ post)
  /\ (forall x, Re.match_at re (m +:+ x) = Some m).
Proof.
  revert s m. induction re as [|k re IH]; intros s m Hm.
  - cbn in Hm. injection Hm as <-. split; [exists s|]; reflexivity.
  - destruct s as [|c s]; [discriminate|]. rewrite match_at_cons in Hm.
    destruct (Re.accepts k c) eqn:Hk; [|discriminate].
    destruct (Re.match_at re s) as [m'|] eqn:Hm'; [|discriminate].
    injection Hm as <-. destruct (IH _ _ Hm') as [[post ->] Hx].
    split; [exists post; reflexivity|].
    intros x. rewrite append_cons, match_at_cons, Hk, Hx. reflexivity.
Qed.

Lemma match_at_nonempty (re : Re.regex) (s m : string) :
  re <> [] -> Re.match_at re s = Some m -> m <> EmptyString.
Proof.
  destruct re as [|k re]; [congruence|]. intros _.
  destruct s as [|c s]; [discriminate|]. rewrite match_at_cons.
  destruct (Re.accepts k c); [|discriminate].
  destruct (Re.match_at re s); [|discriminate].
  intros [= <-]. discriminate.
Qed.

Lemma prefix_append (sep x : string) : String.prefix sep (sep +:+ x) = true.
Proof.
  induction sep as [|c sep IH]; [destruct x; reflexivity|].
  rewrite append_cons. cbn [String.prefix].
  destruct (ascii_dec c c); [exact IH|congruence].
Qed.

Lemma prefix_split (sep s : string) :
  String.prefix sep s = true -> exists post, s = sep +:+ post.
Proof.
  revert s. induction sep as [|c sep IH]; intros s Hp.
  - exists s. reflexivity.
  - destruct s as [|c' s]; [discriminate|]. cbn [String.prefix] in Hp.
    destruct (ascii_dec c c') as [->|]; [|discriminate].
    destruct (IH _ Hp) as [post ->]. exists post. reflexivity.
Qed.

(** [search] returns the leftmost match. *)
Lemma search_first (re : Re.regex) (s tok : string) :
  Re.search re s = Some tok ->
  exists pre post,
    s = pre +:+ tok +:+ post
    /\ no_match_in re pre (tok +:+ post)
    /\ Re.match_at re (tok +:+ post) = Some tok.
Proof.
  induction s as [|c s IH]; cbn [Re.search].
  - destruct (Re.match_at re EmptyString) as [m|] eqn:Hm; [|discriminate].
    intros [= ->]. destruct (match_at_prefix _ _ _ Hm) as [[post Hs] _].
    exists EmptyString, post. rewrite <- Hs. repeat split; assumption.
  - destruct (Re.match_at re (String c s)) as [m|] eqn:Hm.
    + intros [= ->]. destruct (match_at_prefix _ _ _ Hm) as [[post Hs] _].
      exists EmptyString, post. change (EmptyString +:+ ?x) with x.
      rewrite <- Hs. repeat split; assumption.
    + intros Hs. destruct (IH Hs) as (pre & post & -> & Hno & Htok).
      exists (String c pre), post. repeat split; assumption.
Qed.

Lemma search_leftmost (re : Re.regex) (pre tok rest : string) :
  no_match_in re pre (tok +:+ rest) ->
  Re.match_at re (tok +:+ rest) = Some tok ->
  Re.search re (pre +:+ tok +:+ rest) = Some tok.
Proof.
  intros Hno Htok. induction pre as [|c pre IH].
  - change (EmptyString +:+ ?x) with x.
    destruct (tok +:+ rest); cbn [Re.search]; rewrite Htok; reflexivity.
  - destruct Hno as [Hc Hno]. rewrite append_cons in *. cbn [Re.search].
    rewrite Hc. exact (IH Hno).
Qed.

Lemma text_before_first (re : Re.regex) (pre tok rest : string) :
  no_match_in re pre (tok +:+ rest) ->
  Re.match_at re (tok +:+ rest) = Some tok ->
  text_before tok (pre +:+ tok +:+ rest) = pre.
Proof.
  intros Hno Htok. induction pre as [|c pre IH].
  - change (EmptyString +:+ ?x) with x.
    destruct (tok +:+ rest) eqn:Heq; cbn [text_before];
      rewrite <- ?Heq, prefix_append; reflexivity.
  - destruct Hno as [Hc Hno]. rewrite append_cons in *. cbn [text_before].
    destruct (String.prefix tok (String c (pre +:+ tok +:+ rest))) eqn:Hp.
    + apply prefix_split in Hp as [post Hp]. rewrite Hp in Hc.
      destruct (match_at_prefix _ _ _ Htok) as [_ Hx].
      rewrite Hx in Hc. discriminate.
    + rewrite (IH Hno). reflexivity.
Qed.

(** Replacing what follows [pre] by a text whose first character no later
    class accepts cannot create a match that starts inside [pre]. *)
Lemma match_at_stays_none (re : Re.regex) (p r1 r2 : string) :
  head_rejected re r2 = true ->
  Re.match_at re (p +:+ r1) = None ->
  Re.match_at re (p +:+ r2) = None.
Proof.
  revert p. induction re as [|k re IH]; intros p Hrej Hnone; [discriminate|].
  destruct p as [|c p].
  - change (EmptyString +:+ ?x) with x in *.
    destruct r2 as [|c2 r2]; [reflexivity|]. rewrite match_at_cons.
    cbn in Hrej. apply andb_true_iff in Hrej as [Hk _].
    apply negb_true_iff in Hk. rewrite Hk. reflexivity.
  - rewrite append_cons, match_at_cons in *.
    destruct (Re.accepts k c); [|reflexivity].
    rewrite IH; [reflexivity| |].
    + destruct r2 as [|c2 r2]; [reflexivity|]. cbn in Hrej |- *.
      apply andb_true_iff in Hrej as [_ Hrest]. exact Hrest.
    + destruct (Re.match_at re (p +:+ r1)); [discriminate|reflexivity].
Qed.

Lemma no_match_in_swap (re : Re.regex) (pre r1 r2 : string) :
  head_rejected (tail re) r2 = true ->
  no_match_in re pre r1 -> no_match_in re pre r2.
Proof.
  intros Hrej. induction pre as [|c pre IH]; [trivial|].
  intros [Hc Hno]. split; [|exact (IH Hno)].
  destruct re as [|k re]; [discriminate|].
  rewrite append_cons, match_at_cons in *.
  destruct (Re.accepts k c); [|reflexivity].
  rewrite (match_at_stays_none re pre r1 r2 Hrej); [reflexivity|].
  destruct (Re.match_at re (pre +:+ r1)); [discriminate|reflexivity].
Qed.

(** ** The anchor mutators *)

Lemma get_room_url_shape :
  get_room_url = insert_before_anchor get_room_regex "在 URL 中未找到房型模式: ".
Proof. reflexivity. Qed.

Lemma get_direction_url_shape :
  get_direction_url
    = insert_before_anchor get_direction_regex "在 URL 中未找到朝向标识符: ".
Proof. reflexivity. Qed.

Lemma get_floor_url_shape :
  get_floor_url = insert_before_anchor get_floor_regex "在 URL 中未找到楼层模式: ".
Proof. reflexivity. Qed.

Lemma get_room_type_list_values :
  get_room_type_list = ["l0"; "l1"; "l2"; "l3"].
Proof. reflexivity. Qed.

Lemma insert_before_anchor_missing (re : Re.regex) (warning base_url : string)
    (value : pyval) :
  Re.search re base_url = None ->
  insert_before_anchor re warning base_url value
    = ([Log WARNING (warning +:+ base_url)], Ret base_url).
Proof. intros Hs. unfold insert_before_anchor. rewrite Hs. reflexivity. Qed.

Lemma insert_before_anchor_at (re : Re.regex) (warning pre tok rest : string)
    (value : pyval) :
  re <> [] ->
  no_match_in re pre (tok +:+ rest) ->
  Re.match_at re (tok +:+ rest) = Some tok ->
  insert_before_anchor re warning (pre +:+ tok +:+ rest) value
    = ([], Ret (pre +:+ py_str value +:+ tok +:+ "/")).
Proof.
  intros Hre Hno Htok. unfold insert_before_anchor.
  rewrite (search_leftmost _ _ _ _ Hno Htok).
  pose proof (match_at_nonempty _ _ _ Hre Htok) as Hne.
  unfold split1_head. destruct tok as [|c tok]; [congruence|].
  rewrite bind_ret_l, (text_before_first _ _ _ _ Hno Htok). reflexivity.
Qed.

Lemma insert_before_anchor_found (re : Re.regex) (warning base_url tok : string)
    (value : pyval) :
  re <> [] ->
  Re.search re base_url = Some tok ->
  exists pre post,
    base_url = pre +:+ tok +:+ post
    /\ no_match_in re pre (tok +:+ post)
    /\ Re.match_at re (tok +:+ post) = Some tok
    /\ insert_before_anchor re warning base_url value
        = ([], Ret (pre +:+ py_str value +:+ tok +:+ "/")).
Proof.
  intros Hre Hs.
  destruct (search_first _ _ _ Hs) as (pre & post & -> & Hno & Htok).
  exists pre, post. repeat split; try assumption.
  apply insert_before_anchor_at; assumption.
Qed.

(** Mutating again with a value that the pattern itself matches finds that
    value, not the old token. *)
Lemma insert_before_anchor_again (re : Re.regex) (warning pre r1 v x : string) :
  re <> [] ->
  no_match_in re pre r1 ->
  Re.match_at re v = Some v ->
  head_rejected (tail re) v = true ->
  insert_before_anchor re warning (pre +:+ v +:+ x) (PStr v)
    = ([], Ret (pre +:+ v +:+ v +:+ "/")).
Proof.
  intros Hre Hno Hv Hrej.
  destruct (match_at_prefix _ _ _ Hv) as [_ Hx].
  apply insert_before_anchor_at; [assumption| |apply Hx].
  apply (no_match_in_swap re pre r1); [|assumption].
  pose proof (match_at_nonempty _ _ _ Hre Hv) as Hne.
  destruct v as [|c v]; [congruence|exact Hrej].
Qed.

(** C3 (amended): each of the three anchor mutators, on a URL in which its
    pattern matches, returns the text before the leftmost match, then the
    new value, then the matched token itself, then a slash; the text after
    the token is dropped.  Mutating that result again with the same value
    of the level's list finds the inserted value first and yields prefix,
    value, value, slash. *)
Theorem anchor_mutator_inserts_before_first_match
    (mutate : string -> pyval -> eff event string) (re : Re.regex)
    (values : list string) (base_url tok : string) (value : pyval) :
  (mutate, re, values) ∈ anchor_mutators ->
  Re.search re base_url = Some tok ->
  exists pre post,
    base_url = pre +:+ tok +:+ post
    /\ no_match_in re pre (tok +:+ post)
    /\ Re.match_at re (tok +:+ post) = Some tok
    /\ mutate base_url value
        = ([], Ret (pre +:+ py_str value +:+ tok +:+ "/"))
    /\ (forall v : string, v ∈ values ->
          mutate (pre +:+ v +:+ tok +:+ "/") (PStr v)
            = ([], Ret (pre +:+ v +:+ v +:+ "/"))).
Proof.
  intros Hin Hs. unfold anchor_mutators in Hin.
  assert (forall warning,
    mutate = insert_before_anchor re warning ->
    re <> [] ->
    (forall v, v ∈ values ->
       Re.match_at re v = Some v /\ head_rejected (tail re) v = true) ->
    exists pre post,
      base_url = pre +:+ tok +:+ post
      /\ no_match_in re pre (tok +:+ post)
      /\ Re.match_at re (tok +:+ post) = Some tok
      /\ mutate base_url value
          = ([], Ret (pre +:+ py_str value +:+ tok +:+ "/"))
      /\ (forall v : string, v ∈ values ->
            mutate (pre +:+ v +:+ tok +:+ "/") (PStr v)
              = ([], Ret (pre +:+ v +:+ v +:+ "/")))) as Hgen.
  { intros warning -> Hre Hvalues.
    destruct (insert_before_anchor_found re warning base_url tok value Hre Hs)
      as (pre & post & Hbase & Hno & Htok & Hout).
    exists pre, post. repeat split; try assumption.
    intros v Hv. destruct (Hvalues v Hv) as [Hmatch Hrej].
    eapply insert_before_anchor_again; eassumption. }
  rewrite !elem_of_cons, elem_of_nil in Hin.
  destruct Hin as [[= -> -> ->]|[[= -> -> ->]|[[= -> -> ->]|[]]]].
  - apply (Hgen _ get_room_url_shape); [discriminate|].
    intros v Hv. rewrite get_room_type_list_values in Hv.
    rewrite !elem_of_cons, elem_of_nil in Hv.
    destruct Hv as [->|[->|[->|[->|[]]]]]; split; reflexivity.
  - apply (Hgen _ get_direction_url_shape); [discriminate|].
    intros v Hv. unfold get_direction_list in Hv.
    rewrite !elem_of_cons, elem_of_nil in Hv.
    destruct Hv as [->|[->|[->|[->|[->|[]]]]]]; split; reflexivity.
  - apply (Hgen _ get_floor_url_shape); [discriminate|].
    intros v Hv. unfold get_floor_list in Hv.
    rewrite !elem_of_cons, elem_of_nil in Hv.
    destruct Hv as [->|[->|[->|[]]]]; split; reflexivity.
Qed.

(** ** Fan-out of the walker *)

Lemma getitem_some {E A} (key : string) (a : A) :
  @getitem E A key (Some a) = ret a.
Proof. reflexivity. Qed.

Lemma getitem_none {E A} (key : string) :
  @getitem E A key None = raise (KeyError key).
Proof. reflexivity. Qed.

Lemma parse_level_city (city : string) (response : Response) :
  level_of response = PStr "city" ->
  should_subdivide (summary_counts response).1 (summary_counts response).2
    = true ->
  parse_level city response =
    (level_banner response :: summary_trace response
       ++ ((fun href => Yield (child_request (base_url city +:+ href) "area"))
             <$> xpath_area_hrefs response),
     Ret tt).
Proof.
  intros Hlevel. enter_level response. intros Hsub.
  rewrite Hlevel, entry_city.
  cbn [sd_should_subdivide sd_next_level sd_extract_urls truthy].
  rewrite Hsub, getitem_some, bind_ret_l.
  unfold yield, extract_area_urls. rewrite for_each_emit. reflexivity.
Qed.

Lemma parse_level_room (city : string) (response : Response) :
  level_of response = PStr "room" ->
  should_subdivide (summary_counts response).1 (summary_counts response).2
    = true ->
  let children :=
    for_each get_direction_list (fun item =>
      let* modified_url := get_direction_url (resp_url response) (PStr item) in
      yield (child_request modified_url "direction")) in
  parse_level city response =
    (level_banner response :: summary_trace response ++ children.1,
     children.2).
Proof.
  intros Hlevel. enter_level response. intros Hsub.
  rewrite Hlevel, entry_room.
  cbn [sd_should_subdivide sd_next_level sd_extract_urls sd_url_modifier
       sd_list truthy].
  rewrite Hsub, getitem_some, bind_ret_l.
  rewrite bool_decide_eq_false_2 by discriminate.
  rewrite getitem_some, bind_ret_l. reflexivity.
Qed.

Lemma parse_level_direction (city : string) (response : Response) :
  level_of response = PStr "direction" ->
  should_subdivide (summary_counts response).1 (summary_counts response).2
    = true ->
  let children :=
    for_each get_floor_list (fun item =>
      let* modified_url := get_floor_url (resp_url response) (PStr item) in
      yield (child_request modified_url "floor")) in
  parse_level city response =
    (level_banner response :: summary_trace response ++ children.1,
     children.2).
Proof.
  intros Hlevel. enter_level response. intros Hsub.
  rewrite Hlevel, entry_direction.
  cbn [sd_should_subdivide sd_next_level sd_extract_urls sd_url_modifier
       sd_list truthy].
  rewrite Hsub, getitem_some, bind_ret_l.
  rewrite bool_decide_eq_false_2 by discriminate.
  rewrite getitem_some, bind_ret_l. reflexivity.
Qed.

(** C2 (evaluation of the defect): a response at level [area] whose counts
    ask for subdivision makes [parse_level] raise [KeyError('list')] before
    any request is yielded, and one at level [price] makes it raise
    [KeyError('max_pages')]: the price-band loop is guarded by
    [current_level == 'price'] although [max_pages] belongs to the [area]
    entry. *)
Theorem parse_level_area_and_price_raise_KeyError
    (city : string) (response : Response) :
  should_subdivide (summary_counts response).1 (summary_counts response).2
    = true ->
  (level_of response = PStr "area" ->
   parse_level city response =
     (level_banner response :: summary_trace response,
      Raise (KeyError "list")))
  /\ (level_of response = PStr "price" ->
      parse_level city response =
        (level_banner response :: summary_trace response,
         Raise (KeyError "max_pages"))).
Proof.
  enter_level response. intros Hsub. split; intros Hlevel; rewrite Hlevel.
  - rewrite entry_area.
    cbn [sd_should_subdivide sd_next_level sd_extract_urls sd_url_modifier
         sd_list truthy].
    rewrite Hsub, getitem_some, bind_ret_l.
    rewrite bool_decide_eq_false_2 by discriminate.
    rewrite getitem_none. cbn. rewrite app_nil_r. reflexivity.
  - rewrite entry_price.
    cbn [sd_should_subdivide sd_next_level sd_extract_urls sd_url_modifier
         sd_max_pages truthy].
    rewrite Hsub, getitem_some, bind_ret_l.
    rewrite bool_decide_eq_true_2 by reflexivity.
    rewrite getitem_none. cbn. rewrite app_nil_r. reflexivity.
Qed.

Lemma parse_level_area_and_price_raise_KeyError_witness :
  parse_level "tj" area_node =
    ([Log INFO "解析 area 页: https://tj.lianjia.com/zufang/heping/"],
     Raise (KeyError "list"))
  /\ parse_level "tj" price_node =
       ([Log INFO "解析 price 页: https://tj.lianjia.com/zufang/heping/rp1/"],
        Raise (KeyError "max_pages")).
Proof.
  split.
  - apply (proj1 (parse_level_area_and_price_raise_KeyError "tj" area_node
                    eq_refl)). reflexivity.
  - apply (proj2 (parse_level_area_and_price_raise_KeyError "tj" price_node
                    eq_refl)). reflexivity.
Defined.

(** ** Missing anchors *)

(** C4 (amended): when its pattern is not found, each anchor mutator logs
    one warning and returns the URL as it is; the walker does not skip
    such a child: at level [room] (and likewise [direction]) it still
    yields one request per list value, each for the parent's own URL with
    the next level attached. *)
Theorem anchor_missing_child_refetches_parent :
  (forall (base_url : string) (value : pyval),
     (Re.search get_room_regex base_url = None ->
      get_room_url base_url value =
        ([Log WARNING ("在 URL 中未找到房型模式: " +:+ base_url)],
         Ret base_url))
     /\ (Re.search get_direction_regex base_url = None ->
         get_direction_url base_url value =
           ([Log WARNING ("在 URL 中未找到朝向标识符: " +:+ base_url)],
            Ret base_url))
     /\ (Re.search get_floor_regex base_url = None ->
         get_floor_url base_url value =
           ([Log WARNING ("在 URL 中未找到楼层模式: " +:+ base_url)],
            Ret base_url)))
  /\ (forall (city : string) (response : Response),
        should_subdivide (summary_counts response).1
          (summary_counts response).2 = true ->
        (level_of response = PStr "room" ->
         Re.search get_direction_regex (resp_url response) = None ->
         parse_level city response =
           (level_banner response :: summary_trace response
              ++ concat ((fun _ : string =>
                   [Log WARNING ("在 URL 中未找到朝向标识符: "
                                 +:+ resp_url response);
                    Yield (child_request (resp_url response) "direction")])
                 <$> get_direction_list),
            Ret tt))
        /\ (level_of response = PStr "direction" ->
            Re.search get_floor_regex (resp_url response) = None ->
            parse_level city response =
              (level_banner response :: summary_trace response
                 ++ concat ((fun _ : string =>
                      [Log WARNING ("在 URL 中未找到楼层模式: "
                                    +:+ resp_url response);
                       Yield (child_request (resp_url response) "floor")])
                    <$> get_floor_list),
               Ret tt))).
Proof.
  split.
  - intros base_url value.
    rewrite get_room_url_shape, get_direction_url_shape, get_floor_url_shape.
    repeat split; apply insert_before_anchor_missing.
  - intros city response Hsub. split; intros Hlevel Hmissing.
    + rewrite (parse_level_room city response Hlevel Hsub).
      rewrite (for_each_blocks _ (fun _ : string =>
        [Log WARNING ("在 URL 中未找到朝向标识符: " +:+ resp_url response);
         Yield (child_request (resp_url response) "direction")]));
        [reflexivity|].
      intros item. rewrite get_direction_url_shape.
      rewrite insert_before_anchor_missing by assumption. reflexivity.
    + rewrite (parse_level_direction city response Hlevel Hsub).
      rewrite (for_each_blocks _ (fun _ : string =>
        [Log WARNING ("在 URL 中未找到楼层模式: " +:+ resp_url response);
         Yield (child_request (resp_url response) "floor")]));
        [reflexivity|].
      intros item. rewrite get_floor_url_shape.
      rewrite insert_before_anchor_missing by assumption. reflexivity.
Qed.

(** ** Redirect retry *)

Lemma set_meta_lookup (request : Request) (key : string) (v : pyval) :
  url (set_meta request key v) = url request
  /\ callback (set_meta request key v) = callback request
  /\ dont_filter (set_meta request key v) = dont_filter request
  /\ meta (set_meta request key v) !! key = Some v
  /\ (forall other, other <> key ->
        meta (set_meta request key v) !! other = meta request !! other).
Proof.
  repeat split; cbn [set_meta meta].
  - apply lookup_insert_eq.
  - intros other Hne. apply lookup_insert_ne. congruence.
Qed.

(** C6 (amended): for a response with status 301 or 302 whose [Location]
    header decodes to [redirect_url] (a missing header reads as the empty
    string), and a request whose redirect retry count reads [n] (0 when
    absent): if [n] has reached
    [max_retry_times] the response is passed through as it is; otherwise
    a copy of the request that differs only in [retry_count = n + 1] is
    handed to the inherited [_retry], and what [_retry] returns is
    resubmitted, or the response is passed through when it returns
    nothing. *)
Theorem redirect_retry_on_301_302
    (max_retry_times : Z) (_retry : Request -> string -> option Request)
    (response_status_message : Z -> string)
    (request : Request) (response : Response)
    (redirect_url : string) (n : Z) :
  status response = 301 \/ status response = 302 ->
  decode_location response = ret redirect_url ->
  dict_get (meta request) "retry_count" (PInt 0) = PInt n ->
  let new_request := set_meta request "retry_count" (PInt (n + 1)) in
  let detected :=
    Log WARNING ("Redirect detected for " +:+ url request +:+ " to "
                 +:+ redirect_url) in
  (max_retry_times <= n ->
   handle_redirect_response max_retry_times _retry response_status_message
     request response =
     ([detected;
       Log ERROR ("Max retries reached for " +:+ url request
                  +:+ ". Giving up after redirect to " +:+ redirect_url
                  +:+ ".")],
      Ret (Pass response)))
  /\ (n < max_retry_times ->
      handle_redirect_response max_retry_times _retry response_status_message
        request response =
        ([detected;
          Log INFO ("Retrying " +:+ url request +:+ " (" +:+ pretty (n + 1)
                    +:+ "/" +:+ pretty max_retry_times
                    +:+ ") due to redirect to " +:+ redirect_url)],
         Ret (match _retry new_request
                      (response_status_message (status response)) with
              | Some retried => Resubmit retried
              | None => Pass response
              end)))
  /\ url new_request = url request
  /\ callback new_request = callback request
  /\ dont_filter new_request = dont_filter request
  /\ meta new_request !! "retry_count" = Some (PInt (n + 1))
  /\ (forall key, key <> "retry_count" ->
        meta new_request !! key = meta request !! key).
Proof.
  intros Hstatus Hloc Hcount new_request detected.
  assert ((status response =? 301) || (status response =? 302) = true)
    as Hredirect.
  { apply orb_true_iff. destruct Hstatus as [->| ->]; [left|right];
      reflexivity. }
  split; [|split; [|apply set_meta_lookup]].
  - intros Hmax. unfold handle_redirect_response.
    rewrite Hredirect, Hloc, bind_ret_l, Hcount.
    unfold log, emit, py_ge. rewrite bind_trace, bind_ret_l.
    destruct (Z.leb_spec max_retry_times n) as [_|]; [|lia]. reflexivity.
  - intros Hlt. unfold handle_redirect_response.
    rewrite Hredirect, Hloc, bind_ret_l, Hcount.
    unfold log, emit, py_ge, py_succ. rewrite bind_trace, bind_ret_l.
    destruct (Z.leb_spec max_retry_times n) as [|_]; [lia|].
    rewrite bind_ret_l, bind_trace. unfold copy. fold new_request.
    destruct (_retry new_request _); reflexivity.
Qed.

(** ** Missing listing count *)

(** C5: for a response that is no captcha page and whose listing-count
    text is missing, with the request's missing-count retries reading [n]
    (0 when absent): an allow-listed URL is resubmitted with the counter
    at [n + 1] whatever [n] is; any other URL is resubmitted with the
    counter at [n + 1] when [n] is below [retry_attempts], and otherwise
    the handler raises [IgnoreRequest], handing back neither a request nor
    a response. *)
Theorem missing_total_count_retry
    (self : TotalCountRetryMiddleware) (request : Request)
    (response : Response) (n : Z) :
  str_contains "captcha" (resp_url response) = false ->
  nonempty_text (xpath_title_hl response) = false ->
  dict_get (meta request) "retry_attempts" (PInt 0) = PInt n ->
  let retry_req :=
    set_dont_filter (set_meta request "retry_attempts" (PInt (n + 1))) true in
  (url request ∈ force_retry_urls self ->
   handle_missing_total_count self request response =
     ([Log INFO ("Forcing retry for " +:+ url request
                 +:+ ", total_count missing (attempt " +:+ pretty (n + 1)
                 +:+ ")")],
      Ret (Resubmit retry_req)))
  /\ (url request ∉ force_retry_urls self -> n < retry_attempts self ->
      handle_missing_total_count self request response =
        ([Log INFO ("Retrying " +:+ url request
                    +:+ " due to missing total_count (attempt "
                    +:+ pretty (n + 1) +:+ ")")],
         Ret (Resubmit retry_req)))
  /\ (url request ∉ force_retry_urls self -> retry_attempts self <= n ->
      handle_missing_total_count self request response =
        ([Log WARNING ("Giving up on " +:+ url request +:+ " after "
                       +:+ pretty n
                       +:+ " retries due to missing total_count")],
         Raise (IgnoreRequest ("Missing total_count_str after " +:+ pretty n
                               +:+ " retries"))))
  /\ url retry_req = url request
  /\ meta retry_req !! "retry_attempts" = Some (PInt (n + 1))
  /\ (forall key, key <> "retry_attempts" ->
        meta retry_req !! key = meta request !! key).
Proof.
  intros Hcaptcha Hmissing Hcount retry_req.
  split; [|split; [|split; [|split; [reflexivity|split]]]].
  - intros Hforce. unfold handle_missing_total_count.
    rewrite Hcaptcha, Hmissing, Hcount.
    rewrite bool_decide_eq_true_2 by assumption. reflexivity.
  - intros Hother Hlt. unfold handle_missing_total_count.
    rewrite Hcaptcha, Hmissing, Hcount.
    rewrite bool_decide_eq_false_2 by assumption.
    unfold py_lt. rewrite bind_ret_l.
    destruct (Z.ltb_spec n (retry_attempts self)) as [_|]; [|lia].
    reflexivity.
  - intros Hother Hge. unfold handle_missing_total_count.
    rewrite Hcaptcha, Hmissing, Hcount.
    rewrite bool_decide_eq_false_2 by assumption.
    unfold py_lt. rewrite bind_ret_l.
    destruct (Z.ltb_spec n (retry_attempts self)) as [|_]; [lia|].
    reflexivity.
  - apply lookup_insert_eq.
  - intros key Hne. cbn [retry_req set_dont_filter set_meta meta].
    apply lookup_insert_ne. congruence.
Qed.

(** C7 (amended): a response whose URL contains [captcha] makes the
    missing-count handler log one warning and raise [IgnoreRequest] at
    once, whatever the status, the marker, the request's counters and the
    allow-list: the handler hands back no request, so it increments
    neither counter. *)
Theorem captcha_fails_missing_total_count
    (self : TotalCountRetryMiddleware) (request : Request)
    (response : Response) :
  str_contains "captcha" (resp_url response) = true ->
  handle_missing_total_count self request response =
    ([Log WARNING ("Captcha detected on " +:+ url request
                   +:+ ", skipping retries")],
     Raise (IgnoreRequest ("Captcha detected for " +:+ url request)))
  /\ (forall (t : list event) (retried : Request),
        handle_missing_total_count self request response
          <> (t, Ret (Resubmit retried))).
Proof.
  intros Hcaptcha. unfold handle_missing_total_count. rewrite Hcaptcha.
  split; [reflexivity|]. intros t retried. discriminate.
Qed.

(** ** Concrete runs *)

Lemma should_subdivide_rule_and_floor_terminal_witness :
  level_of floor_node = PStr "floor"
  /\ summary_counts floor_node = (100, 3050)
  /\ should_subdivide 100 3050 = true
  /\ parse_level "tj" floor_node =
       (level_banner floor_node
          :: (handle_pagination (resp_url floor_node) 100).1,
        Ret tt).
Proof.
  split; [reflexivity|]. split; [reflexivity|]. split; [reflexivity|].
  apply (proj2 (proj2 should_subdivide_rule_and_floor_terminal)
           "tj" floor_node).
  reflexivity.
Defined.

Lemma handle_pagination_one_request_per_page_witness :
  handle_pagination "https://tj.lianjia.com/zufang/hexi/" 3 =
    ([Yield {| url := "https://tj.lianjia.com/zufang/hexi/pg1/";
               callback := parse_data_cb; meta := ∅; dont_filter := true |};
      Yield {| url := "https://tj.lianjia.com/zufang/hexi/pg2/";
               callback := parse_data_cb; meta := ∅; dont_filter := true |};
      Yield {| url := "https://tj.lianjia.com/zufang/hexi/pg3/";
               callback := parse_data_cb; meta := ∅; dont_filter := true |}],
     Ret tt)
  /\ parse_level "tj" small_node =
       (level_banner small_node
          :: (handle_pagination "https://tj.lianjia.com/zufang/hexi/" 3).1,
        Ret tt).
Proof.
  split.
  - apply (proj1 (proj1 handle_pagination_one_request_per_page
                    "https://tj.lianjia.com/zufang/hexi/" 3 eq_refl)).
  - apply (proj2 (proj2 handle_pagination_one_request_per_page)
             "tj" small_node).
    reflexivity.
Defined.

(** C3, the claim as worded fails: on [.../heping/l1rp1/] the room mutator
    keeps the old token [l1] behind the new value and drops [rp1/], and a
    second mutation with the same value gives yet another URL. *)
Lemma room_mutator_not_a_replacement :
  get_room_url "https://tj.lianjia.com/zufang/heping/l1rp1/" (PStr "l0")
    = ([], Ret "https://tj.lianjia.com/zufang/heping/l0l1/")
  /\ get_room_url "https://tj.lianjia.com/zufang/heping/l0l1/" (PStr "l0")
      = ([], Ret "https://tj.lianjia.com/zufang/heping/l0l0/")
  /\ ~ claimed_replace_first get_room_url get_room_regex
  /\ ~ claimed_idempotent get_room_url get_room_regex.
Proof.
  split; [reflexivity|]. split; [reflexivity|]. split.
  - intros Hclaim.
    specialize (Hclaim "https://tj.lianjia.com/zufang/heping/" "l1" "rp1/" "l0").
    assert (get_room_url
              ("https://tj.lianjia.com/zufang/heping/" +:+ "l1" +:+ "rp1/")
              (PStr "l0")
            = ([], Ret "https://tj.lianjia.com/zufang/heping/l0l1/")) as Hrun
      by reflexivity.
    rewrite Hclaim in Hrun; [discriminate| |reflexivity].
    vm_compute. repeat split.
  - intros Hclaim.
    specialize (Hclaim "https://tj.lianjia.com/zufang/heping/l1rp1/" "l0" "l1"
                  eq_refl).
    vm_compute in Hclaim. discriminate.
Qed.

Lemma anchor_mutator_inserts_before_first_match_witness :
  exists pre post,
    "https://tj.lianjia.com/zufang/heping/l1rp1/" = pre +:+ "l1" +:+ post
    /\ no_match_in get_room_regex pre ("l1" +:+ post)
    /\ Re.match_at get_room_regex ("l1" +:+ post) = Some "l1"
    /\ get_room_url "https://tj.lianjia.com/zufang/heping/l1rp1/" (PStr "l0")
        = ([], Ret (pre +:+ "l0" +:+ "l1" +:+ "/"))
    /\ (forall v : string, v ∈ get_room_type_list ->
          get_room_url (pre +:+ v +:+ "l1" +:+ "/") (PStr v)
            = ([], Ret (pre +:+ v +:+ v +:+ "/"))).
Proof.
  apply (anchor_mutator_inserts_before_first_match
           get_room_url get_room_regex get_room_type_list
           "https://tj.lianjia.com/zufang/heping/l1rp1/" "l1" (PStr "l0")).
  - apply list_elem_of_here.
  - reflexivity.
Defined.

(** C4, the claim as worded fails: the URL of [room_node] holds no
    orientation token, and the walker yields five requests for that very
    URL. *)
Lemma room_node_children_refetch_parent :
  Re.search get_direction_regex (resp_url room_node) = None
  /\ resp_url room_node = "https://tj.lianjia.com/zufang/heping/l0rp1/"
  /\ parse_level "tj" room_node =
       (Log INFO "解析 room 页: https://tj.lianjia.com/zufang/heping/l0rp1/"
        :: concat ((fun _ : string =>
             [Log WARNING
                "在 URL 中未找到朝向标识符: https://tj.lianjia.com/zufang/heping/l0rp1/";
              Yield {| url := "https://tj.lianjia.com/zufang/heping/l0rp1/";
                       callback := parse_level_cb;
                       meta := {["level" := PStr "direction"]};
                       dont_filter := true |}]) <$> get_direction_list),
        Ret tt).
Proof. repeat split; vm_compute; reflexivity. Qed.

Lemma anchor_missing_child_refetches_parent_witness :
  parse_level "tj" room_node =
    (level_banner room_node
     :: concat ((fun _ : string =>
          [Log WARNING ("在 URL 中未找到朝向标识符: " +:+ resp_url room_node);
           Yield (child_request (resp_url room_node) "direction")])
        <$> get_direction_list),
     Ret tt).
Proof.
  apply (proj1 (proj2 anchor_missing_child_refetches_parent "tj" room_node
                  eq_refl)); reflexivity.
Defined.

(** C6, the claim as worded fails: a 307 response is a 3xx redirect, the
    request has used none of its three retries, and yet the response is
    passed through and nothing is resubmitted. *)
Lemma redirect_307_passes_through :
  300 <= status redirect_307 < 400
  /\ dict_get (meta city_request) "retry_count" (PInt 0) = PInt 0
  /\ handle_redirect_response 3 always_retry status_message
       city_request redirect_307
     = ([], Ret (Pass redirect_307)).
Proof. split; [cbn; lia|]. split; reflexivity. Qed.

Lemma redirect_retry_on_301_302_witness :
  handle_redirect_response 3 always_retry status_message
    city_request redirect_302
  = ([Log WARNING "Redirect detected for https://tj.lianjia.com/zufang/ to https://tj.lianjia.com/zufang/heping/";
      Log INFO "Retrying https://tj.lianjia.com/zufang/ (1/3) due to redirect to https://tj.lianjia.com/zufang/heping/"],
     Ret (Resubmit (set_meta city_request "retry_count" (PInt 1)))).
Proof.
  apply (proj1 (proj2 (redirect_retry_on_301_302 3 always_retry status_message
    city_request redirect_302 "https://tj.lianjia.com/zufang/heping/" 0
    (or_intror eq_refl) eq_refl eq_refl))).
  lia.
Defined.

Lemma missing_total_count_retry_witness :
  handle_missing_total_count budget_10 city_request blank_page
  = ([Log INFO "Retrying https://tj.lianjia.com/zufang/ due to missing total_count (attempt 1)"],
     Ret (Resubmit
            (set_dont_filter
               (set_meta city_request "retry_attempts" (PInt 1)) true)))
  /\ handle_missing_total_count budget_10 tenth_retry blank_page
     = ([Log WARNING "Giving up on https://tj.lianjia.com/zufang/ after 10 retries due to missing total_count"],
        Raise (IgnoreRequest "Missing total_count_str after 10 retries"))
  /\ handle_missing_total_count forced_10 tenth_retry blank_page
     = ([Log INFO "Forcing retry for https://tj.lianjia.com/zufang/, total_count missing (attempt 11)"],
        Ret (Resubmit
               (set_dont_filter
                  (set_meta tenth_retry "retry_attempts" (PInt 11)) true))).
Proof.
  split; [|split].
  - apply (proj1 (proj2 (missing_total_count_retry
      budget_10 city_request blank_page 0 eq_refl eq_refl eq_refl))).
    + apply not_elem_of_nil.
    + cbn. lia.
  - apply (proj1 (proj2 (proj2 (missing_total_count_retry
      budget_10 tenth_retry blank_page 10 eq_refl eq_refl eq_refl)))).
    + apply not_elem_of_nil.
    + cbn. lia.
  - apply (proj1 (missing_total_count_retry
      forced_10 tenth_retry blank_page 10 eq_refl eq_refl eq_refl)).
    apply list_elem_of_here.
Defined.

(** C7, the claim as worded fails for the redirect counter: the redirect
    handler does not look at the URL, so a 302 response from a captcha URL
    is retried with [retry_count] raised from 0 to 1. *)
Lemma captcha_redirect_is_retried :
  str_contains "captcha" (resp_url captcha_302) = true
  /\ dict_get (meta city_request) "retry_count" (PInt 0) = PInt 0
  /\ handle_redirect_response 3 always_retry status_message
       city_request captcha_302
     = ([Log WARNING "Redirect detected for https://tj.lianjia.com/zufang/ to https://hip.lianjia.com/captcha?id=2";
         Log INFO "Retrying https://tj.lianjia.com/zufang/ (1/3) due to redirect to https://hip.lianjia.com/captcha?id=2"],
        Ret (Resubmit (set_meta city_request "retry_count" (PInt 1))))
  /\ meta (set_meta city_request "retry_count" (PInt 1)) !! "retry_count"
     = Some (PInt 1).
Proof. repeat split; reflexivity. Qed.

Lemma captcha_fails_missing_total_count_witness :
  handle_missing_total_count forced_10 city_request captcha_page
  = ([Log WARNING "Captcha detected on https://tj.lianjia.com/zufang/, skipping retries"],
     Raise (IgnoreRequest "Captcha detected for https://tj.lianjia.com/zufang/")).
Proof.
  apply (proj1 (captcha_fails_missing_total_count
    forced_10 city_request captcha_page eq_refl)).
Defined.

(** ** Sanity checks of the runtime fragment *)

Example int_strips_and_groups : @py_int event (PStr " 1_000 ") = ret 1000.
Proof. reflexivity. Qed.

Example int_negative : @py_int event (PStr "-42") = ret (-42).
Proof. reflexivity. Qed.

Example int_leading_zero : @py_int event (PStr "0987") = ret 987.
Proof. reflexivity. Qed.

Example int_rejects_double_underscore :
  @py_int event (PStr "1__0") = raise ValueError.
Proof. reflexivity. Qed.

Example int_rejects_empty : @py_int event (PStr "") = raise ValueError.
Proof. reflexivity. Qed.

Example int_rejects_bare_sign : @py_int event (PStr "+") = raise ValueError.
Proof. reflexivity. Qed.

Example int_rejects_none : @py_int event PNone = raise TypeError.
Proof. reflexivity. Qed.

Example parse_integer_on_text :
  parse_integer (PStr "约3000") = ([Log WARNING "无效的整数值: 约3000"], Ret 0).
Proof. reflexivity. Qed.

Example search_is_leftmost :
  Re.search get_room_regex "https://tj.lianjia.com/zufang/heping/l1l0/"
    = Some "l1".
Proof. reflexivity. Qed.

Example decode_rejects_bad_utf8 :
  @bytes_decode event (String (ascii_of_N 255) EmptyString)
    = raise UnicodeDecodeError.
Proof. reflexivity. Qed.

Example start_requests_run :
  start_requests "tj" =
    ([Yield {| url := "https://tj.lianjia.com/zufang/";
               callback := parse_level_cb;
               meta := {["level" := PStr "city"]};
               dont_filter := false |}],
     Ret tt).
Proof. reflexivity. Qed.

Example city_node_fans_out :
  parse_level "tj"
    {| resp_url := "https://tj.lianjia.com/zufang/"; status := 200;
       header_location := None; resp_meta := {["level" := PStr "city"]};
       xpath_totalpage := Some "100"; xpath_title_hl := Some "38214";
       xpath_area_hrefs := ["/zufang/heping/"; "/zufang/hexi/"] |}
  = ([Log INFO "解析 city 页: https://tj.lianjia.com/zufang/";
      Yield (child_request "https://tj.lianjia.com/zufang/heping/" "area");
      Yield (child_request "https://tj.lianjia.com/zufang/hexi/" "area")],
     Ret tt).
Proof. reflexivity. Qed.

(** * Further properties of the spider *)

(** ** Traces *)

Lemma bind_outcome_ret {E A B} (m : eff E A) (k : A -> eff E B) (b : B) :
  (forall a, (k a).2 = Ret b) ->
  (exists a, m.2 = Ret a) ->
  (bind m k).2 = Ret b.
Proof.
  intros Hk [a Ha]. destruct m as [t r]. cbn in Ha. subst r.
  rewrite bind_trace. apply Hk.
Qed.

Lemma for_each_returns {E A} (xs : list A) (body : A -> eff E unit) :
  (forall x, (body x).2 = Ret tt) -> (for_each xs body).2 = Ret tt.
Proof.
  intros Hbody. induction xs as [|x xs IH]; [reflexivity|].
  cbn [for_each]. apply bind_outcome_ret; [intros _; exact IH|].
  exists tt. apply Hbody.
Qed.

Lemma bind_trace_Forall {E A B} (P : E -> Prop) (m : eff E A)
    (k : A -> eff E B) :
  Forall P m.1 -> (forall a, Forall P (k a).1) -> Forall P (bind m k).1.
Proof.
  intros Hm Hk. destruct m as [t [a|e]]; [|exact Hm].
  rewrite bind_trace. cbn [fst]. apply Forall_app. split; [exact Hm|apply Hk].
Qed.

Lemma for_each_trace_Forall {E A} (P : E -> Prop) (xs : list A)
    (body : A -> eff E unit) :
  (forall x, Forall P (body x).1) -> Forall P (for_each xs body).1.
Proof.
  intros Hbody. induction xs as [|x xs IH]; [constructor|].
  cbn [for_each]. apply bind_trace_Forall; [apply Hbody|intros _; exact IH].
Qed.

(** ** Levels outside the table *)

Lemma level_cases (level : pyval) :
  level = PStr "city" \/ level = PStr "area" \/ level = PStr "price"
  \/ level = PStr "room" \/ level = PStr "direction"
  \/ level = PStr "floor"
  \/ (forall city p h,
        hierarchy_get (subdivision_hierarchy city p h) level = empty_entry).
Proof.
  destruct level as [| |s]; [do 6 right; reflexivity..|].
  destruct (decide (s = "city")) as [->|]; [tauto|].
  destruct (decide (s = "area")) as [->|]; [tauto|].
  destruct (decide (s = "price")) as [->|]; [tauto|].
  destruct (decide (s = "room")) as [->|]; [tauto|].
  destruct (decide (s = "direction")) as [->|]; [tauto|].
  destruct (decide (s = "floor")) as [->|]; [tauto|].
  do 6 right. intros city p h. unfold hierarchy_get, subdivision_hierarchy.
  rewrite !lookup_insert_ne by congruence. rewrite lookup_empty. reflexivity.
Qed.

Lemma handle_pagination_returns (base_url : string) (total_pages : Z) :
  (handle_pagination base_url total_pages).2 = Ret tt.
Proof.
  unfold handle_pagination. destruct (negb (total_pages =? 0)); [|reflexivity].
  apply for_each_returns. reflexivity.
Qed.

Lemma anchor_mutator_returns (re : Re.regex) (warning base_url : string)
    (value : pyval) :
  re <> [] ->
  exists t u,
    insert_before_anchor re warning base_url value = (t, Ret u)
    /\ (t = [] \/ t = [Log WARNING (warning +:+ base_url)]).
Proof.
  intros Hre. destruct (Re.search re base_url) as [tok|] eqn:Hs.
  - destruct (insert_before_anchor_found re warning base_url tok value Hre Hs)
      as (pre & post & _ & _ & _ & ->). eauto.
  - rewrite insert_before_anchor_missing by assumption. eauto.
Qed.

Lemma parse_level_area_raises (city : string) (response : Response) :
  level_of response = PStr "area" ->
  should_subdivide (summary_counts response).1 (summary_counts response).2
    = true ->
  parse_level city response =
    (level_banner response :: summary_trace response, Raise (KeyError "list")).
Proof.
  intros Hlevel. enter_level response. intros Hsub. rewrite Hlevel, entry_area.
  cbn [sd_should_subdivide sd_next_level sd_extract_urls sd_url_modifier
       sd_list truthy].
  rewrite Hsub, getitem_some, bind_ret_l.
  rewrite bool_decide_eq_false_2 by discriminate.
  rewrite getitem_none. cbn. rewrite app_nil_r. reflexivity.
Qed.

Lemma parse_level_price_raises (city : string) (response : Response) :
  level_of response = PStr "price" ->
  should_subdivide (summary_counts response).1 (summary_counts response).2
    = true ->
  parse_level city response =
    (level_banner response :: summary_trace response,
     Raise (KeyError "max_pages")).
Proof.
  intros Hlevel. enter_level response. intros Hsub. rewrite Hlevel, entry_price.
  cbn [sd_should_subdivide sd_next_level sd_extract_urls sd_url_modifier
       sd_max_pages truthy].
  rewrite Hsub, getitem_some, bind_ret_l.
  rewrite bool_decide_eq_true_2 by reflexivity.
  rewrite getitem_none. cbn. rewrite app_nil_r. reflexivity.
Qed.






Lemma anchor_children (re : Re.regex) (warning base_url tok next : string)
    (values : list string) :
  re <> [] ->
  Re.search re base_url = Some tok ->
  exists pre post,
    base_url = pre +:+ tok +:+ post
    /\ for_each values (fun item =>
         let* modified_url :=
           insert_before_anchor re warning base_url (PStr item) in
         yield (child_request modified_url next))
       = ((fun item =>
             Yield (child_request (pre +:+ item +:+ tok +:+ "/") next))
            <$> values,
          Ret tt).
Proof.
  intros Hre Hs.
  destruct (search_first _ _ _ Hs) as (pre & post & -> & Hno & Htok).
  exists pre, post. split; [reflexivity|].
  rewrite (for_each_blocks _ (fun item =>
    [Yield (child_request (pre +:+ item +:+ tok +:+ "/") next)])).
  - f_equal. induction values as [|v vs IH]; [reflexivity|].
    cbn. f_equal. exact IH.
  - intros item. rewrite insert_before_anchor_at by assumption.
    rewrite bind_trace. reflexivity.
Qed.

(** X3: at level [room] (and likewise [direction]), when the counts ask
    for subdivision and the node's URL holds an orientation (floor) token,
    the walker yields one request per orientation (floor) code, in list
    order and without any warning; each child URL is the text before the
    leftmost token, the code, the token and a slash. *)
Theorem room_and_direction_levels_one_child_per_code
    (city : string) (response : Response) (tok : string) :
  should_subdivide (summary_counts response).1 (summary_counts response).2
    = true ->
  (level_of response = PStr "room" ->
   Re.search get_direction_regex (resp_url response) = Some tok ->
   exists pre post,
     resp_url response = pre +:+ tok +:+ post
     /\ parse_level city response =
          (level_banner response :: summary_trace response
             ++ ((fun code =>
                    Yield (child_request (pre +:+ code +:+ tok +:+ "/")
                             "direction"))
                   <$> get_direction_list),
           Ret tt))
  /\ (level_of response = PStr "direction" ->
      Re.search get_floor_regex (resp_url response) = Some tok ->
      exists pre post,
        resp_url response = pre +:+ tok +:+ post
        /\ parse_level city response =
             (level_banner response :: summary_trace response
                ++ ((fun code =>
                       Yield (child_request (pre +:+ code +:+ tok +:+ "/")
                                "floor"))
                      <$> get_floor_list),
              Ret tt)).
Proof.
  intros Hsub. split; intros Hlevel Hs.
  - destruct (anchor_children get_direction_regex
                "在 URL 中未找到朝向标识符: " (resp_url response) tok
                "direction" get_direction_list) as (pre & post & Hurl & Hrun);
      [discriminate|assumption|].
    exists pre, post. split; [exact Hurl|].
    rewrite (parse_level_room city response Hlevel Hsub).
    rewrite get_direction_url_shape, Hrun. reflexivity.
  - destruct (anchor_children get_floor_regex
                "在 URL 中未找到楼层模式: " (resp_url response) tok
                "floor" get_floor_list) as (pre & post & Hurl & Hrun);
      [discriminate|assumption|].
    exists pre, post. split; [exact Hurl|].
    rewrite (parse_level_direction city response Hlevel Hsub).
    rewrite get_floor_url_shape, Hrun. reflexivity.
Qed.

Lemma room_and_direction_levels_one_child_per_code_witness :
  exists pre post,
    resp_url floor_tagged_node = pre +:+ "lc200500000002" +:+ post
    /\ parse_level "tj" floor_tagged_node =
         (level_banner floor_tagged_node :: summary_trace floor_tagged_node
            ++ ((fun code =>
                   Yield (child_request
                            (pre +:+ code +:+ "lc200500000002" +:+ "/")
                            "floor"))
                  <$> get_floor_list),
          Ret tt).
Proof.
  apply (proj2 (room_and_direction_levels_one_child_per_code
                  "tj" floor_tagged_node "lc200500000002" eq_refl));
    reflexivity.
Defined.

Example floor_tagged_node_children :
  parse_level "tj" floor_tagged_node =
    ([Log INFO "解析 direction 页: https://tj.lianjia.com/zufang/heping/lc200500000002f100500000001l0rp1/";
      Yield (child_request
               "https://tj.lianjia.com/zufang/heping/lc200500000003lc200500000002/"
               "floor");
      Yield (child_request
               "https://tj.lianjia.com/zufang/heping/lc200500000002lc200500000002/"
               "floor");
      Yield (child_request
               "https://tj.lianjia.com/zufang/heping/lc200500000001lc200500000002/"
               "floor")],
     Ret tt).
Proof. reflexivity. Qed.

(** X4: a response whose [meta] holds no [level], or a level that is not
    one of the five subdividing levels of the table, is never subdivided:
    whatever its counts, the walker hands it to [handle_pagination]. *)
Theorem unknown_level_is_paginated (city : string) (response : Response) :
  level_of response
    ∉ [PStr "city"; PStr "area"; PStr "price"; PStr "room"; PStr "direction"] ->
  parse_level city response =
    (level_banner response :: summary_trace response
       ++ (handle_pagination (resp_url response)
             (summary_counts response).1).1,
     Ret tt).
Proof.
  intros Hout. rewrite parse_level_paginates.
  - rewrite handle_pagination_returns. reflexivity.
  - destruct (level_cases (level_of response))
      as [Hl|[Hl|[Hl|[Hl|[Hl|[Hl|Hl]]]]]];
      try (rewrite Hl in Hout; exfalso; apply Hout;
           rewrite !elem_of_cons; tauto);
      rewrite Hl; reflexivity.
Qed.

Lemma unknown_level_is_paginated_witness :
  level_of untagged_node = PNone
  /\ should_subdivide 2 4000 = true
  /\ parse_level "tj" untagged_node =
       ([Log INFO "解析 None 页: https://tj.lianjia.com/zufang/heping/";
         Yield {| url := "https://tj.lianjia.com/zufang/heping/pg1/";
                  callback := parse_data_cb; meta := ∅; dont_filter := true |};
         Yield {| url := "https://tj.lianjia.com/zufang/heping/pg2/";
                  callback := parse_data_cb; meta := ∅; dont_filter := true |}],
        Ret tt).
Proof.
  split; [reflexivity|]. split; [reflexivity|].
  apply (unknown_level_is_paginated "tj" untagged_node).
  rewrite !elem_of_cons, elem_of_nil. intros [H|[H|[H|[H|[H|[]]]]]];
    discriminate H.
Defined.

Lemma handle_pagination_negative (base_url : string) (total_pages : Z) :
  total_pages < 0 -> handle_pagination base_url total_pages = ([], Ret tt).
Proof.
  intros Hneg. unfold handle_pagination, py_range.
  destruct (Z.eqb_spec total_pages 0) as [->|_]; [lia|]. cbn [negb].
  rewrite seqZ_nil by lia. reflexivity.
Qed.

(** X6: a negative page count (the count text may carry a minus sign) is
    truthy and gives an empty page range: [handle_pagination] yields
    nothing and, unlike for a count of 0, logs nothing. *)
Theorem negative_page_count_is_silent (base_url : string) (total_pages : Z) :
  total_pages < 0 ->
  handle_pagination base_url total_pages = ([], Ret tt).
Proof. apply handle_pagination_negative. Qed.

Lemma negative_page_count_is_silent_witness :
  parse_integer (PStr "-3") = ([], Ret (-3))
  /\ handle_pagination "https://tj.lianjia.com/zufang/hexi/" (-3)
     = ([], Ret tt).
Proof.
  split; [reflexivity|].
  apply (negative_page_count_is_silent _ (-3)). lia.
Defined.

Lemma append_inj_r (s t u : string) : s +:+ t = s +:+ u -> t = u.
Proof.
  induction s as [|c s IH]; [trivial|].
  rewrite !append_cons. intros [= H]. exact (IH H).
Qed.

Lemma append_slash_inj (s t : string) : s +:+ "/" = t +:+ "/" -> s = t.
Proof.
  revert t. induction s as [|c s IH]; intros [|d t]; cbn; intros H.
  - reflexivity.
  - destruct t; discriminate H.
  - destruct s; discriminate H.
  - injection H as -> H. f_equal. exact (IH _ H).
Qed.

(** X7: the page requests of one node are pairwise distinct: two
    different entries of the trace never ask for the same URL. *)
Theorem page_urls_are_distinct (base_url : string) (total_pages : Z)
    (i j : nat) (first second : Request) :
  (handle_pagination base_url total_pages).1 !! i = Some (Yield first) ->
  (handle_pagination base_url total_pages).1 !! j = Some (Yield second) ->
  i <> j ->
  url first <> url second.
Proof.
  destruct (decide (0 < total_pages)) as [Hpos|Hnpos].
  - rewrite (handle_pagination_pages _ _ Hpos). cbn [fst].
    rewrite !list_lookup_fmap. intros Hi Hj Hne Hurl.
    destruct (seqZ 1 total_pages !! i) as [a|] eqn:Ha; [|discriminate].
    destruct (seqZ 1 total_pages !! j) as [b|] eqn:Hb; [|discriminate].
    cbn in Hi, Hj. injection Hi as <-. injection Hj as <-. cbn [url] in Hurl.
    apply append_inj_r, append_inj_r, append_slash_inj in Hurl.
    apply (inj pretty) in Hurl. subst b.
    apply lookup_seqZ in Ha as [Ha _]. apply lookup_seqZ in Hb as [Hb _]. lia.
  - destruct (decide (total_pages = 0)) as [->|Hne].
    + intros Hi. destruct i as [|[|i]]; discriminate Hi.
    + rewrite handle_pagination_negative by lia. intros Hi. discriminate Hi.
Qed.

Lemma page_urls_are_distinct_witness :
  (handle_pagination "https://tj.lianjia.com/zufang/hexi/" 12).1 !! 0%nat
    = Some (Yield {| url := "https://tj.lianjia.com/zufang/hexi/pg1/";
                     callback := parse_data_cb; meta := ∅;
                     dont_filter := true |})
  /\ (handle_pagination "https://tj.lianjia.com/zufang/hexi/" 12).1 !! 10%nat
      = Some (Yield {| url := "https://tj.lianjia.com/zufang/hexi/pg11/";
                       callback := parse_data_cb; meta := ∅;
                       dont_filter := true |})
  /\ "https://tj.lianjia.com/zufang/hexi/pg1/"
      <> "https://tj.lianjia.com/zufang/hexi/pg11/".
Proof.
  split; [reflexivity|]. split; [reflexivity|].
  apply (page_urls_are_distinct "https://tj.lianjia.com/zufang/hexi/" 12
           0 10
           {| url := "https://tj.lianjia.com/zufang/hexi/pg1/";
              callback := parse_data_cb; meta := ∅; dont_filter := true |}
           {| url := "https://tj.lianjia.com/zufang/hexi/pg11/";
              callback := parse_data_cb; meta := ∅; dont_filter := true |});
    [reflexivity|reflexivity|lia].
Defined.

Lemma summary_trace_logs (response : Response) :
  Forall (fun e => exists msg, e = Log WARNING msg) (summary_trace response).
Proof.
  unfold summary_trace, get_page_info, extract_total_pages,
    extract_total_houses.
  assert (forall v, Forall (fun e => exists msg, e = Log WARNING msg)
                      (parse_integer v).1) as Hparse.
  { intros v. rewrite parse_integer_cases.
    destruct v as [|z|s]; [|constructor|destruct (int_of_string s)];
      cbn [fst]; repeat first [apply Forall_nil_2 | apply Forall_cons_2];
      eauto. }
  apply bind_trace_Forall; [apply Hparse|]. intros p.
  apply bind_trace_Forall; [apply Hparse|]. intros h. constructor.
Qed.

(** X5: every request the walker yields has [dont_filter] set; it is
    either a page request (callback [parse_data], empty [meta]) or a child
    partition (callback [parse_level]) whose [meta] holds nothing but the
    [level] key, set to the next level the table names for the node's own
    level.  This holds on every response, also when the walker raises. *)
Theorem yielded_requests_are_well_formed
    (city : string) (response : Response) :
  Forall (fun e => forall r, e = Yield r ->
            dont_filter r = true
            /\ (callback r = parse_data_cb /\ meta r = ∅
                \/ callback r = parse_level_cb
                   /\ exists next,
                        meta r = {["level" := PStr next]}
                        /\ sd_next_level
                             (hierarchy_get
                                (subdivision_hierarchy city
                                   (summary_counts response).1
                                   (summary_counts response).2)
                                (level_of response)) = Some next))
    (parse_level city response).1.
Proof.
  set (P := fun e : event => _).
  assert (forall msg lvl, P (Log lvl msg)) as Plog by (intros ? ? r [=]).
  assert (Forall P (summary_trace response)) as Psummary.
  { eapply Forall_impl; [apply summary_trace_logs|].
    intros e [msg ->]. apply Plog. }
  assert (forall base_url n, Forall P (handle_pagination base_url n).1)
    as Ppages.
  { intros base_url n. unfold handle_pagination.
    destruct (negb (n =? 0));
      [|apply Forall_cons_2; [apply Plog|apply Forall_nil_2]].
    apply for_each_trace_Forall. intros k.
    apply Forall_cons_2; [|apply Forall_nil_2].
    intros r [= <-]. split; [reflexivity|]. left. split; reflexivity. }
  assert (forall entry,
    hierarchy_get
      (subdivision_hierarchy city (summary_counts response).1
         (summary_counts response).2) (level_of response) = entry ->
    truthy (sd_should_subdivide entry) = false ->
    Forall P (parse_level city response).1) as Hpaginate.
  { intros entry Hentry Hno. rewrite parse_level_paginates.
    - cbn [fst]. constructor; [apply Plog|].
      apply Forall_app. split; [exact Psummary|apply Ppages].
    - rewrite Hentry. exact Hno. }
  assert (forall next u,
    sd_next_level
      (hierarchy_get
         (subdivision_hierarchy city (summary_counts response).1
            (summary_counts response).2) (level_of response)) = Some next ->
    P (Yield (child_request u next))) as Pchild.
  { intros next u Hnext r [= <-]. split; [reflexivity|]. right.
    split; [reflexivity|]. exists next. split; [reflexivity|exact Hnext]. }
  assert (forall re warning next,
    re <> [] ->
    sd_next_level
      (hierarchy_get
         (subdivision_hierarchy city (summary_counts response).1
            (summary_counts response).2) (level_of response)) = Some next ->
    forall values,
      Forall P (for_each values (fun item =>
        let* modified_url :=
          insert_before_anchor re warning (resp_url response) (PStr item) in
        yield (child_request modified_url next))).1) as Pmut.
  { intros re warning next Hre Hnext values.
    apply for_each_trace_Forall. intros item.
    destruct (anchor_mutator_returns re warning (resp_url response)
                (PStr item) Hre) as (t & u & -> & Ht).
    rewrite bind_trace. cbn [fst]. apply Forall_app. split.
    - destruct Ht as [->| ->]; [apply Forall_nil_2|].
      apply Forall_cons_2; [apply Plog|apply Forall_nil_2].
    - apply Forall_cons_2; [|apply Forall_nil_2]. apply Pchild. exact Hnext. }
  destruct (should_subdivide (summary_counts response).1
              (summary_counts response).2) eqn:Hsub.
  - destruct (level_cases (level_of response))
      as [Hl|[Hl|[Hl|[Hl|[Hl|[Hl|Hl]]]]]].
    + rewrite (parse_level_city city response Hl Hsub). cbn [fst].
      constructor; [apply Plog|]. apply Forall_app. split; [exact Psummary|].
      apply Forall_fmap, Forall_true. intros href. apply Pchild.
      rewrite Hl. reflexivity.
    + rewrite (parse_level_area_raises city response Hl Hsub). cbn [fst].
      constructor; [apply Plog|exact Psummary].
    + rewrite (parse_level_price_raises city response Hl Hsub). cbn [fst].
      constructor; [apply Plog|exact Psummary].
    + rewrite (parse_level_room city response Hl Hsub). cbn [fst].
      constructor; [apply Plog|]. apply Forall_app. split; [exact Psummary|].
      rewrite get_direction_url_shape. apply Pmut; [discriminate|].
      rewrite Hl. reflexivity.
    + rewrite (parse_level_direction city response Hl Hsub). cbn [fst].
      constructor; [apply Plog|]. apply Forall_app. split; [exact Psummary|].
      rewrite get_floor_url_shape. apply Pmut; [discriminate|].
      rewrite Hl. reflexivity.
    + apply (Hpaginate _ eq_refl). rewrite Hl. reflexivity.
    + apply (Hpaginate _ eq_refl). rewrite Hl. reflexivity.
  - apply (Hpaginate _ eq_refl).
    destruct (level_cases (level_of response))
      as [Hl|[Hl|[Hl|[Hl|[Hl|[Hl|Hl]]]]]]; rewrite Hl; try reflexivity;
      rewrite ?entry_city, ?entry_area, ?entry_price, ?entry_room,
        ?entry_direction; cbn [sd_should_subdivide truthy]; exact Hsub.
Qed.

(** X8: the three anchor mutators never raise, whatever the URL and the
    value: they either log nothing and return a URL that ends with the
    found token and a slash, or log one warning and return the URL they
    were given. *)
Theorem anchor_mutators_never_raise
    (mutate : string -> pyval -> eff event string) (re : Re.regex)
    (values : list string) (base_url : string) (value : pyval) :
  (mutate, re, values) ∈ anchor_mutators ->
  (exists head tok,
     Re.search re base_url = Some tok
     /\ mutate base_url value
        = ([], Ret (head +:+ py_str value +:+ tok +:+ "/")))
  \/ (exists warning,
        Re.search re base_url = None
        /\ mutate base_url value
           = ([Log WARNING (warning +:+ base_url)], Ret base_url)).
Proof.
  intros Hin.
  assert (forall warning, mutate = insert_before_anchor re warning ->
    re <> [] ->
    (exists head tok,
       Re.search re base_url = Some tok
       /\ mutate base_url value
          = ([], Ret (head +:+ py_str value +:+ tok +:+ "/")))
    \/ (exists warning,
          Re.search re base_url = None
          /\ mutate base_url value
             = ([Log WARNING (warning +:+ base_url)], Ret base_url)))
    as Hgen.
  { intros warning -> Hre.
    destruct (Re.search re base_url) as [tok|] eqn:Hs.
    - left.
      destruct (insert_before_anchor_found re warning base_url tok value
                  Hre Hs) as (pre & post & _ & _ & _ & Hout).
      exists pre, tok. split; [reflexivity|exact Hout].
    - right. exists warning. split; [reflexivity|].
      apply insert_before_anchor_missing. exact Hs. }
  unfold anchor_mutators in Hin. rewrite !elem_of_cons, elem_of_nil in Hin.
  destruct Hin as [[= -> -> ->]|[[= -> -> ->]|[[= -> -> ->]|[]]]].
  - apply (Hgen _ get_room_url_shape). discriminate.
  - apply (Hgen _ get_direction_url_shape). discriminate.
  - apply (Hgen _ get_floor_url_shape). discriminate.
Qed.

Lemma anchor_mutators_never_raise_witness :
  (exists head tok,
     Re.search get_floor_regex "https://tj.lianjia.com/zufang/" = Some tok
     /\ get_floor_url "https://tj.lianjia.com/zufang/" PNone
        = ([], Ret (head +:+ py_str PNone +:+ tok +:+ "/")))
  \/ (exists warning,
        Re.search get_floor_regex "https://tj.lianjia.com/zufang/" = None
        /\ get_floor_url "https://tj.lianjia.com/zufang/" PNone
           = ([Log WARNING (warning +:+ "https://tj.lianjia.com/zufang/")],
              Ret "https://tj.lianjia.com/zufang/")).
Proof.
  apply (anchor_mutators_never_raise get_floor_url get_floor_regex
           get_floor_list "https://tj.lianjia.com/zufang/" PNone).
  unfold anchor_mutators. rewrite !elem_of_cons. tauto.
Defined.

(** X9: with a value of the level's list, an anchor mutator settles after
    two applications: on a URL in which the pattern matches, the second
    result is a fixed point of every further application. *)
Theorem anchor_mutation_settles_after_two
    (mutate : string -> pyval -> eff event string) (re : Re.regex)
    (values : list string) (base_url tok v : string) :
  (mutate, re, values) ∈ anchor_mutators ->
  v ∈ values ->
  Re.search re base_url = Some tok ->
  exists settled,
    (let* once := mutate base_url (PStr v) in mutate once (PStr v))
      = ([], Ret settled)
    /\ mutate settled (PStr v) = ([], Ret settled).
Proof.
  intros Hin Hv Hs.
  assert (forall warning, mutate = insert_before_anchor re warning ->
    re <> [] ->
    Re.match_at re v = Some v -> head_rejected (tail re) v = true ->
    exists settled,
      (let* once := mutate base_url (PStr v) in mutate once (PStr v))
        = ([], Ret settled)
      /\ mutate settled (PStr v) = ([], Ret settled)) as Hgen.
  { intros warning -> Hre Hmatch Hrej.
    destruct (insert_before_anchor_found re warning base_url tok (PStr v)
                Hre Hs) as (pre & post & _ & Hno & _ & Hout).
    exists (pre +:+ v +:+ v +:+ "/"). rewrite Hout, bind_trace. cbn [py_str].
    rewrite (insert_before_anchor_again re warning pre (tok +:+ post) v
               (tok +:+ "/") Hre Hno Hmatch Hrej).
    split; [reflexivity|].
    apply (insert_before_anchor_again re warning pre (tok +:+ post) v
             (v +:+ "/") Hre Hno Hmatch Hrej). }
  unfold anchor_mutators in Hin. rewrite !elem_of_cons, elem_of_nil in Hin.
  destruct Hin as [[= -> -> ->]|[[= -> -> ->]|[[= -> -> ->]|[]]]].
  - rewrite get_room_type_list_values in Hv.
    rewrite !elem_of_cons, elem_of_nil in Hv.
    destruct Hv as [->|[->|[->|[->|[]]]]];
      apply (Hgen _ get_room_url_shape); try discriminate; reflexivity.
  - unfold get_direction_list in Hv. rewrite !elem_of_cons, elem_of_nil in Hv.
    destruct Hv as [->|[->|[->|[->|[->|[]]]]]];
      apply (Hgen _ get_direction_url_shape); try discriminate; reflexivity.
  - unfold get_floor_list in Hv. rewrite !elem_of_cons, elem_of_nil in Hv.
    destruct Hv as [->|[->|[->|[]]]];
      apply (Hgen _ get_floor_url_shape); try discriminate; reflexivity.
Qed.

Lemma anchor_mutation_settles_after_two_witness :
  exists settled,
    (let* once :=
       get_room_url "https://tj.lianjia.com/zufang/heping/l1rp1/" (PStr "l0") in
     get_room_url once (PStr "l0")) = ([], Ret settled)
    /\ get_room_url settled (PStr "l0") = ([], Ret settled).
Proof.
  apply (anchor_mutation_settles_after_two get_room_url get_room_regex
           get_room_type_list "https://tj.lianjia.com/zufang/heping/l1rp1/"
           "l1" "l0").
  - unfold anchor_mutators. rewrite !elem_of_cons. tauto.
  - rewrite get_room_type_list_values, !elem_of_cons. tauto.
  - reflexivity.
Defined.

(** ** Decimal numerals *)











(** * Further properties of the middlewares *)

(** ** Redirect handler *)

(** X11: a response whose status is neither 301 nor 302 is returned as it
    is and nothing is logged, whatever the request carries; neither the
    [Location] header nor the retry count is looked at. *)
Theorem other_statuses_pass_untouched
    (max_retry_times : Z) (_retry : Request -> string -> option Request)
    (response_status_message : Z -> string)
    (request : Request) (response : Response) :
  status response <> 301 -> status response <> 302 ->
  handle_redirect_response max_retry_times _retry response_status_message
    request response = ([], Ret (Pass response)).
Proof.
  intros H301 H302. unfold handle_redirect_response.
  destruct (Z.eqb_spec (status response) 301); [contradiction|].
  destruct (Z.eqb_spec (status response) 302); [contradiction|].
  reflexivity.
Qed.

Lemma other_statuses_pass_untouched_witness :
  handle_redirect_response 3 always_retry status_message
    mistyped_request unavailable_503
  = ([], Ret (Pass unavailable_503)).
Proof.
  apply (other_statuses_pass_untouched 3 always_retry status_message
           mistyped_request unavailable_503);
    discriminate.
Defined.

(** X12: the two ways the redirect handler fails on a 301 or 302: a
    [Location] header that is not valid UTF-8 raises [UnicodeDecodeError]
    before anything is logged, and a [retry_count] in [meta] that is not
    an integer raises [TypeError] right after the redirect warning; in
    both cases nothing is resubmitted. *)
Theorem redirect_handler_failures
    (max_retry_times : Z) (_retry : Request -> string -> option Request)
    (response_status_message : Z -> string)
    (request : Request) (response : Response) :
  status response = 301 \/ status response = 302 ->
  (decode_location response = raise UnicodeDecodeError ->
   handle_redirect_response max_retry_times _retry response_status_message
     request response = ([], Raise UnicodeDecodeError))
  /\ (forall redirect_url,
        decode_location response = ret redirect_url ->
        (forall n, dict_get (meta request) "retry_count" (PInt 0) <> PInt n) ->
        handle_redirect_response max_retry_times _retry
          response_status_message request response
        = ([Log WARNING ("Redirect detected for " +:+ url request +:+ " to "
                         +:+ redirect_url)],
           Raise TypeError)).
Proof.
  intros Hstatus.
  assert ((status response =? 301) || (status response =? 302) = true)
    as Hredirect.
  { apply orb_true_iff. destruct Hstatus as [->| ->]; [left|right];
      reflexivity. }
  split.
  - intros Hbad. unfold handle_redirect_response.
    rewrite Hredirect, Hbad. reflexivity.
  - intros redirect_url Hloc Hcount. unfold handle_redirect_response.
    rewrite Hredirect, Hloc, bind_ret_l.
    destruct (dict_get (meta request) "retry_count" (PInt 0)) as [|n|s];
      [reflexivity|exfalso; apply (Hcount n); reflexivity|reflexivity].
Qed.

Lemma redirect_handler_failures_witness :
  handle_redirect_response 3 always_retry status_message city_request
    garbled_302
  = ([], Raise UnicodeDecodeError)
  /\ handle_redirect_response 3 always_retry status_message
       mistyped_request redirect_302
     = ([Log WARNING "Redirect detected for https://tj.lianjia.com/zufang/ to https://tj.lianjia.com/zufang/heping/"],
        Raise TypeError).
Proof.
  split.
  - apply (proj1 (redirect_handler_failures 3 always_retry status_message
             city_request garbled_302 (or_intror eq_refl))). reflexivity.
  - apply (proj2 (redirect_handler_failures 3 always_retry status_message
             mistyped_request redirect_302 (or_intror eq_refl))
             "https://tj.lianjia.com/zufang/heping/");
      [reflexivity|]. intros n. discriminate.
Defined.

Lemma redirect_step
    (max_retry_times : Z) (_retry : Request -> string -> option Request)
    (response_status_message : Z -> string)
    (request : Request) (response : Response)
    (redirect_url : string) (n : Z) :
  status response = 301 \/ status response = 302 ->
  decode_location response = ret redirect_url ->
  dict_get (meta request) "retry_count" (PInt 0) = PInt n ->
  exists trace,
    handle_redirect_response max_retry_times _retry response_status_message
      request response =
      (trace,
       Ret (if max_retry_times <=? n then Pass response
            else match _retry (set_meta request "retry_count" (PInt (n + 1)))
                         (response_status_message (status response)) with
                 | Some retried => Resubmit retried
                 | None => Pass response
                 end)).
Proof.
  intros Hstatus Hloc Hcount.
  assert ((status response =? 301) || (status response =? 302) = true)
    as Hredirect.
  { apply orb_true_iff. destruct Hstatus as [->| ->]; [left|right];
      reflexivity. }
  unfold handle_redirect_response.
  rewrite Hredirect, Hloc, bind_ret_l, Hcount.
  unfold log, emit, py_ge, py_succ. rewrite bind_trace, bind_ret_l.
  destruct (max_retry_times <=? n); [eexists; reflexivity|].
  rewrite bind_ret_l, bind_trace. unfold copy.
  destruct (_retry _ _); eexists; reflexivity.
Qed.

Lemma rounds_S (step : Request -> eff event handled) (fuel : nat)
    (request : Request) :
  rounds step (S fuel) request =
    (let* outcome := step request in
     match outcome with
     | Pass response => ret (O, Some response)
     | Resubmit again =>
         let* (n, final) := rounds step fuel again in
         ret (S n, final)
     end).
Proof. reflexivity. Qed.

(** X13: redirect retries are bounded.  When the same 301/302 response
    keeps coming back and the inherited [_retry] leaves [retry_count]
    alone in the request it schedules, a request whose count reads [n] is
    resubmitted at most [max_retry_times - n] times and the response is
    then passed through; exactly that many times when [_retry] always
    schedules. *)
Theorem redirect_retries_are_bounded
    (max_retry_times : Z) (_retry : Request -> string -> option Request)
    (response_status_message : Z -> string)
    (response : Response) (redirect_url : string) :
  status response = 301 \/ status response = 302 ->
  decode_location response = ret redirect_url ->
  (forall r reason r', _retry r reason = Some r' ->
     dict_get (meta r') "retry_count" (PInt 0)
       = dict_get (meta r) "retry_count" (PInt 0)) ->
  forall (request : Request) (n : Z),
    dict_get (meta request) "retry_count" (PInt 0) = PInt n ->
    exists trace k,
      rounds (fun r => handle_redirect_response max_retry_times _retry
                         response_status_message r response)
        (S (Z.to_nat (max_retry_times - n))) request
        = (trace, Ret (k, Some response))
      /\ (k <= Z.to_nat (max_retry_times - n))%nat
      /\ ((forall r reason, _retry r reason <> None) ->
          k = Z.to_nat (max_retry_times - n)).
Proof.
  intros Hstatus Hloc Hkeeps request n.
  remember (Z.to_nat (max_retry_times - n)) as budget eqn:Hbudget.
  revert request n Hbudget.
  induction budget as [|budget IH]; intros request n Hbudget Hcount.
  - destruct (redirect_step max_retry_times _retry response_status_message
                request response redirect_url n Hstatus Hloc Hcount)
      as [trace Hstep].
    rewrite rounds_S, Hstep, bind_trace.
    destruct (Z.leb_spec max_retry_times n); [|lia].
    exists (trace ++ []), O. cbn. repeat split; lia.
  - destruct (redirect_step max_retry_times _retry response_status_message
                request response redirect_url n Hstatus Hloc Hcount)
      as [trace Hstep].
    rewrite rounds_S, Hstep, bind_trace.
    destruct (Z.leb_spec max_retry_times n); [lia|].
    destruct (_retry (set_meta request "retry_count" (PInt (n + 1))) _)
      as [retried|] eqn:Hretry.
    + destruct (IH retried (n + 1)) as (trace' & k & Hrun & Hle & Hexact).
      { lia. }
      { rewrite (Hkeeps _ _ _ Hretry). unfold dict_get.
        cbn [set_meta meta]. rewrite lookup_insert_eq. reflexivity. }
      cbn beta iota. rewrite Hrun, bind_trace. cbn [fst snd].
      exists (trace ++ trace' ++ []), (S k). repeat split; [lia|].
      intros Hall. rewrite (Hexact Hall). reflexivity.
    + exists (trace ++ []), O. cbn. repeat split; [lia|].
      intros Hall. destruct (Hall _ _ Hretry).
Qed.

Lemma redirect_retries_are_bounded_witness :
  exists trace k,
    rounds (fun r => handle_redirect_response 3 always_retry status_message
                       r redirect_302) 4 city_request
      = (trace, Ret (k, Some redirect_302))
    /\ (k <= 3)%nat
    /\ ((forall r reason, always_retry r reason <> None) -> k = 3%nat).
Proof.
  refine (redirect_retries_are_bounded 3 always_retry status_message
            redirect_302 "https://tj.lianjia.com/zufang/heping/"
            (or_intror eq_refl) eq_refl _ city_request 0 eq_refl).
  intros r reason r' [= <-]. reflexivity.
Defined.

Example three_redirect_retries_then_pass :
  (rounds (fun r => handle_redirect_response 3 always_retry status_message
                      r redirect_302) 4 city_request).2
  = Ret (3%nat, Some redirect_302).
Proof. reflexivity. Qed.

(** ** Missing-count handler *)

(** X14: a response that is no captcha page and carries the listing-count
    text is passed on as it is and nothing is logged, whatever the retry
    counter of the request and whether or not its URL is allow-listed. *)
Theorem counted_response_is_accepted
    (self : TotalCountRetryMiddleware) (request : Request)
    (response : Response) :
  str_contains "captcha" (resp_url response) = false ->
  nonempty_text (xpath_title_hl response) = true ->
  handle_missing_total_count self request response
    = ([], Ret (Pass response)).
Proof.
  intros Hcaptcha Hmarker. unfold handle_missing_total_count.
  rewrite Hcaptcha, Hmarker. reflexivity.
Qed.

Lemma counted_response_is_accepted_witness :
  handle_missing_total_count budget_10
    (set_meta city_request "retry_attempts" (PInt 99)) area_node
  = ([], Ret (Pass area_node)).
Proof.
  apply (counted_response_is_accepted budget_10
           (set_meta city_request "retry_attempts" (PInt 99)) area_node);
    reflexivity.
Defined.

Lemma missing_count_step
    (self : TotalCountRetryMiddleware) (request : Request)
    (response : Response) (n : Z) :
  str_contains "captcha" (resp_url response) = false ->
  nonempty_text (xpath_title_hl response) = false ->
  dict_get (meta request) "retry_attempts" (PInt 0) = PInt n ->
  let retry_req :=
    set_dont_filter (set_meta request "retry_attempts" (PInt (n + 1))) true in
  handle_missing_total_count self request response =
    if bool_decide (url request ∈ force_retry_urls self) then
      ([Log INFO ("Forcing retry for " +:+ url request
                  +:+ ", total_count missing (attempt " +:+ pretty (n + 1)
                  +:+ ")")],
       Ret (Resubmit retry_req))
    else if n <? retry_attempts self then
      ([Log INFO ("Retrying " +:+ url request
                  +:+ " due to missing total_count (attempt "
                  +:+ pretty (n + 1) +:+ ")")],
       Ret (Resubmit retry_req))
    else
      ([Log WARNING ("Giving up on " +:+ url request +:+ " after "
                     +:+ pretty n +:+ " retries due to missing total_count")],
       Raise (IgnoreRequest ("Missing total_count_str after " +:+ pretty n
                             +:+ " retries"))).
Proof.
  intros Hcaptcha Hmissing Hcount retry_req.
  unfold handle_missing_total_count. rewrite Hcaptcha, Hmissing, Hcount.
  destruct (bool_decide (url request ∈ force_retry_urls self));
    [reflexivity|].
  unfold py_lt. rewrite bind_ret_l.
  destruct (n <? retry_attempts self); reflexivity.
Qed.

(** X15: the regular retry budget is exact.  When the same blank page
    keeps coming back for a URL that is not allow-listed, a request whose
    counter reads [n <= retry_attempts] is resubmitted [retry_attempts - n]
    times, with attempts [n + 1 .. retry_attempts] logged in order, and
    the next delivery raises [IgnoreRequest]. *)
Theorem missing_count_budget_is_exact
    (self : TotalCountRetryMiddleware) (response : Response) :
  str_contains "captcha" (resp_url response) = false ->
  nonempty_text (xpath_title_hl response) = false ->
  forall (request : Request) (n : Z),
    url request ∉ force_retry_urls self ->
    dict_get (meta request) "retry_attempts" (PInt 0) = PInt n ->
    n <= retry_attempts self ->
    rounds (fun r => handle_missing_total_count self r response)
      (S (Z.to_nat (retry_attempts self - n))) request
    = (((fun k =>
           Log INFO ("Retrying " +:+ url request
                     +:+ " due to missing total_count (attempt "
                     +:+ pretty (k + 1) +:+ ")"))
          <$> seqZ n (retry_attempts self - n))
       ++ [Log WARNING ("Giving up on " +:+ url request +:+ " after "
                        +:+ pretty (retry_attempts self)
                        +:+ " retries due to missing total_count")],
       Raise (IgnoreRequest ("Missing total_count_str after "
                             +:+ pretty (retry_attempts self)
                             +:+ " retries"))).
Proof.
  intros Hcaptcha Hmissing request n.
  remember (Z.to_nat (retry_attempts self - n)) as left_over eqn:Hleft.
  revert request n Hleft.
  induction left_over as [|left_over IH];
    intros request n Hleft Hother Hcount Hle.
  - assert (n = retry_attempts self) as -> by lia.
    rewrite rounds_S.
    rewrite (missing_count_step self request response _ Hcaptcha Hmissing
               Hcount).
    rewrite bool_decide_eq_false_2 by assumption.
    rewrite Z.ltb_irrefl, Z.sub_diag. reflexivity.
  - rewrite rounds_S.
    rewrite (missing_count_step self request response _ Hcaptcha Hmissing
               Hcount).
    rewrite bool_decide_eq_false_2 by assumption.
    destruct (Z.ltb_spec n (retry_attempts self)); [|lia].
    rewrite bind_trace. cbn beta iota.
    rewrite (IH _ (n + 1)); [| lia | exact Hother | | lia].
    + rewrite bind_raise. cbn [fst snd url set_dont_filter set_meta].
      rewrite (seqZ_cons n) by lia. cbn [fmap list_fmap app].
      replace (Z.pred (retry_attempts self - n))
        with (retry_attempts self - (n + 1)) by lia.
      reflexivity.
    + unfold dict_get. cbn [set_dont_filter set_meta meta].
      rewrite lookup_insert_eq. reflexivity.
Qed.

Lemma missing_count_budget_is_exact_witness :
  rounds (fun r => handle_missing_total_count
                     (new_total_count_retry 2 None) r blank_page)
    3 city_request
  = ([Log INFO "Retrying https://tj.lianjia.com/zufang/ due to missing total_count (attempt 1)";
      Log INFO "Retrying https://tj.lianjia.com/zufang/ due to missing total_count (attempt 2)";
      Log WARNING "Giving up on https://tj.lianjia.com/zufang/ after 2 retries due to missing total_count"],
     Raise (IgnoreRequest "Missing total_count_str after 2 retries")).
Proof.
  apply (missing_count_budget_is_exact (new_total_count_retry 2 None)
           blank_page eq_refl eq_refl city_request 0).
  - apply not_elem_of_nil.
  - reflexivity.
  - cbn. lia.
Defined.

(** X16: an allow-listed URL is never given up.  When the same blank page
    keeps coming back, every delivery resubmits: after any number [fuel]
    of deliveries there have been [fuel] resubmissions, attempts
    [n + 1 .. n + fuel] have been logged, and no response has been passed
    on nor any exception raised, however small [retry_attempts] is. *)
Theorem allow_listed_url_retries_forever
    (self : TotalCountRetryMiddleware) (response : Response) :
  str_contains "captcha" (resp_url response) = false ->
  nonempty_text (xpath_title_hl response) = false ->
  forall (fuel : nat) (request : Request) (n : Z),
    url request ∈ force_retry_urls self ->
    dict_get (meta request) "retry_attempts" (PInt 0) = PInt n ->
    rounds (fun r => handle_missing_total_count self r response) fuel request
    = ((fun k =>
          Log INFO ("Forcing retry for " +:+ url request
                    +:+ ", total_count missing (attempt " +:+ pretty (k + 1)
                    +:+ ")"))
         <$> seqZ n (Z.of_nat fuel),
       Ret (fuel, None)).
Proof.
  intros Hcaptcha Hmissing fuel.
  induction fuel as [|fuel IH]; intros request n Hforce Hcount;
    [reflexivity|].
  rewrite rounds_S.
  rewrite (missing_count_step self request response _ Hcaptcha Hmissing
             Hcount).
  rewrite bool_decide_eq_true_2 by assumption.
  rewrite bind_trace. cbn beta iota.
  rewrite (IH _ (n + 1)); [|exact Hforce|].
  - rewrite bind_trace. cbn [fst snd url set_dont_filter set_meta].
    rewrite (seqZ_cons n) by lia. cbn [fmap list_fmap app].
    replace (Z.pred (Z.of_nat (S fuel))) with (Z.of_nat fuel) by lia.
    rewrite app_nil_r. reflexivity.
  - unfold dict_get. cbn [set_dont_filter set_meta meta].
    rewrite lookup_insert_eq. reflexivity.
Qed.

Lemma allow_listed_url_retries_forever_witness :
  rounds (fun r => handle_missing_total_count
                     {| retry_attempts := 0;
                        force_retry_urls := ["https://tj.lianjia.com/zufang/"] |}
                     r blank_page) 2 city_request
  = ([Log INFO "Forcing retry for https://tj.lianjia.com/zufang/, total_count missing (attempt 1)";
      Log INFO "Forcing retry for https://tj.lianjia.com/zufang/, total_count missing (attempt 2)"],
     Ret (2%nat, None)).
Proof.
  apply (allow_listed_url_retries_forever
           {| retry_attempts := 0;
              force_retry_urls := ["https://tj.lianjia.com/zufang/"] |}
           blank_page eq_refl eq_refl 2 city_request 0).
  - apply list_elem_of_here.
  - reflexivity.
Defined.

(** ** Proxy selection *)

Lemma random_choice_member (draw : nat) (pool : list string) :
  pool <> [] -> exists proxy, random_choice draw pool = Some proxy /\ proxy ∈ pool.
Proof.
  intros Hne. unfold random_choice. destruct pool as [|p ps]; [congruence|].
  destruct (lookup_lt_is_Some_2 (p :: ps) (draw mod length (p :: ps))%nat)
    as [proxy Hproxy].
  { apply Nat.mod_upper_bound. discriminate. }
  exists proxy. split; [exact Hproxy|].
  apply list_elem_of_lookup. eauto.
Qed.

(** X17: a proxy middleware built without a selector always attaches a
    proxy, never fails, and the proxy is an entry of its pool: of the
    configured list when that is not empty, and otherwise (no list, or an
    empty one) the built-in entry.  The request leaves with [meta['proxy']]
    set, its other [meta] entries, URL and flags as before, and one line
    logged. *)
Theorem default_selector_draws_from_the_pool
    (default_proxy : string) (configured : option (list string))
    (draw : nat) (request : Request) :
  let self := new_proxy_middleware default_proxy configured None in
  exists proxy,
    handle_request_with_proxy self draw request
      = Some ([Log INFO ("Using Proxy: " +:+ proxy)],
              Ret (set_meta request "proxy" (PStr proxy)))
    /\ proxy ∈ proxy_list self
    /\ (forall pool, configured = Some pool -> pool <> [] -> proxy ∈ pool)
    /\ (configured = None \/ configured = Some [] -> proxy = default_proxy)
    /\ (forall key, key <> "proxy" ->
          meta (set_meta request "proxy" (PStr proxy)) !! key
            = meta request !! key).
Proof.
  intros self.
  assert (proxy_list self <> []) as Hne.
  { unfold self, new_proxy_middleware. cbn [proxy_list].
    destruct configured as [[|p ps]|]; discriminate. }
  destruct (random_choice_member draw (proxy_list self) Hne)
    as (proxy & Hdraw & Hin).
  exists proxy. split; [|split; [exact Hin|split; [|split]]].
  - unfold handle_request_with_proxy.
    change (proxy_selector self draw request)
      with (random_choice draw (proxy_list self)).
    rewrite Hdraw. reflexivity.
  - intros pool -> Hpool. destruct pool as [|p ps]; [congruence|exact Hin].
  - intros [-> | ->]; cbn in Hin; apply list_elem_of_singleton in Hin;
      exact Hin.
  - intros key Hkey. cbn [set_meta meta]. apply lookup_insert_ne. congruence.
Qed.

(** X18: the route-based selector sends every URL that contains
    [example.com] through the fixed example proxy, whatever the pool
    holds (even nothing); for any other URL it draws from the pool, and
    fails exactly when the pool is empty. *)
Theorem custom_selector_routes_example_hosts
    (pool : list string) (draw : nat) (request : Request) :
  (str_contains "example.com" (url request) = true ->
   custom_proxy_selector pool draw request = Some "http://example_proxy:port")
  /\ (str_contains "example.com" (url request) = false ->
      (pool = [] /\ custom_proxy_selector pool draw request = None)
      \/ (exists proxy,
            custom_proxy_selector pool draw request = Some proxy
            /\ proxy ∈ pool)).
Proof.
  unfold custom_proxy_selector. split; intros ->; [reflexivity|].
  destruct pool as [|p ps]; [left; split; reflexivity|right].
  apply random_choice_member. discriminate.
Qed.

Lemma custom_selector_routes_example_hosts_witness :
  custom_proxy_selector [] 7%nat
    {| url := "https://www.example.com/zufang/"; callback := parse_data_cb;
       meta := ∅; dont_filter := false |}
  = Some "http://example_proxy:port".
Proof.
  apply (proj1 (custom_selector_routes_example_hosts [] 7%nat
    {| url := "https://www.example.com/zufang/"; callback := parse_data_cb;
       meta := ∅; dont_filter := false |})).
  reflexivity.
Defined.

(** ** Connection header *)

(** X19: [modify_connection_header] sets [Connection: close] exactly when
    the URL contains [some_condition], or [meta['force_close']] is truthy,
    or the URL contains [example.com]; it then logs exactly one line.
    Otherwise the headers come back unchanged and nothing is logged.  No
    other header is ever touched and the call never raises. *)
Theorem connection_close_conditions
    (request : Request) (headers : gmap string string) :
  let wanted :=
    str_contains "some_condition" (url request)
    || py_truthy (dict_get (meta request) "force_close" (PInt 0))
    || str_contains "example.com" (url request) in
  exists trace after,
    modify_connection_header request headers = (trace, Ret after)
    /\ after = (if wanted then <["Connection" := "close"]> headers
                else headers)
    /\ length trace = (if wanted then 1%nat else 0%nat)
    /\ (forall name, name <> "Connection" -> after !! name = headers !! name).
Proof.
  intros wanted. unfold wanted, modify_connection_header,
    should_modify_connection.
  destruct (str_contains "some_condition" (url request));
    [|destruct (py_truthy _);
      [|destruct (str_contains "example.com" (url request))]];
    cbn [orb]; eexists _, _; (split; [reflexivity|]);
    (split; [reflexivity|]); (split; [reflexivity|]);
    intros name Hname; [..|reflexivity];
    apply lookup_insert_ne; congruence.
Qed.

(** * Properties of the listing extraction *)

(** ** Whitespace *)

Lemma lstrip_split (t : list N) :
  exists blank,
    t = blank ++ Text.lstrip t
    /\ Forall (fun c => Text.is_whitespace c = true) blank
    /\ (forall c, head (Text.lstrip t) = Some c ->
          Text.is_whitespace c = false).
Proof.
  induction t as [|c t (blank & Heq & Hblank & Hhead)].
  - exists []. repeat split; [constructor|discriminate].
  - cbn [Text.lstrip]. destruct (Text.is_whitespace c) eqn:Hc.
    + exists (c :: blank). split; [cbn; congruence|].
      split; [constructor; assumption|exact Hhead].
    + exists []. repeat split; [constructor|].
      intros c' [= <-]. exact Hc.
Qed.

Lemma lstrip_keeps_solid_head (t : list N) (c : N) :
  head t = Some c -> Text.is_whitespace c = false -> Text.lstrip t = t.
Proof.
  destruct t as [|c' t]; [discriminate|]. intros [= ->] Hc.
  cbn. rewrite Hc. reflexivity.
Qed.

(** [strip] cuts a blank prefix and a blank suffix off, and what is left
    begins and ends with a character that is not whitespace. *)
Lemma strip_split (t : list N) :
  exists before after,
    t = before ++ Text.strip t ++ after
    /\ Forall (fun c => Text.is_whitespace c = true) before
    /\ Forall (fun c => Text.is_whitespace c = true) after
    /\ (forall c, head (Text.strip t) = Some c ->
          Text.is_whitespace c = false)
    /\ (forall c, last (Text.strip t) = Some c ->
          Text.is_whitespace c = false).
Proof.
  destruct (lstrip_split t) as (before & Hleft & Hbefore & Hhead).
  destruct (lstrip_split (reverse (Text.lstrip t)))
    as (tail_rev & Hright & Htail & Hlast).
  assert (Text.lstrip t = Text.strip t ++ reverse tail_rev) as Hcore.
  { unfold Text.strip, Text.rstrip.
    rewrite <- (reverse_involutive (Text.lstrip t)) at 1.
    rewrite Hright at 1. rewrite reverse_app. reflexivity. }
  exists before, (reverse tail_rev). repeat split.
  - rewrite <- Hcore. exact Hleft.
  - exact Hbefore.
  - apply Forall_reverse. exact Htail.
  - intros c Hc. apply Hhead. rewrite Hcore.
    destruct (Text.strip t); [discriminate|exact Hc].
  - intros c Hc. apply Hlast. unfold Text.strip, Text.rstrip in Hc.
    rewrite last_reverse in Hc. exact Hc.
Qed.

Lemma filter_blank (blank : list N) :
  Forall (fun c => Text.is_whitespace c = true) blank ->
  filter (fun c => Text.is_whitespace c = false) blank = [].
Proof.
  unfold Text.text in *.
  induction 1 as [|c blank Hc _ IH]; [reflexivity|].
  rewrite filter_cons_False by (rewrite Hc; discriminate). exact IH.
Qed.

Lemma filter_strip (t : list N) :
  filter (fun c => Text.is_whitespace c = false) (Text.strip t : list N)
    = filter (fun c => Text.is_whitespace c = false) t.
Proof.
  destruct (strip_split t) as (before & after & Heq & Hb & Ha & _).
  unfold Text.text in *. rewrite Heq at 2. rewrite !filter_app, (filter_blank _ Hb),
    (filter_blank _ Ha), app_nil_r. reflexivity.
Qed.

(** [''.join(t.split())] drops every whitespace character and nothing
    else. *)
Lemma split_from_join (word t : list N) :
  Forall (fun c => Text.is_whitespace c = false) word ->
  Text.join_empty (Text.split_from word t)
    = reverse word ++ filter (fun c => Text.is_whitespace c = false) t.
Proof.
  unfold Text.text in *.
  revert word. induction t as [|c t IH]; intros word Hword.
  - cbn. destruct word; cbn; [reflexivity|].
    rewrite !app_nil_r. reflexivity.
  - cbn [Text.split_from]. destruct (Text.is_whitespace c) eqn:Hc.
    + rewrite filter_cons_False by (rewrite Hc; discriminate).
      destruct word as [|w word].
      * apply (IH []). constructor.
      * unfold Text.join_empty in *. cbn [concat].
        rewrite (IH []) by constructor. reflexivity.
    + rewrite filter_cons_True by exact Hc.
      rewrite IH by (constructor; assumption).
      rewrite reverse_cons, <- app_assoc. reflexivity.
Qed.

Lemma join_split (t : list N) :
  Text.join_empty (Text.split t)
    = filter (fun c => Text.is_whitespace c = false) t.
Proof. apply (split_from_join [] t). constructor. Qed.

Lemma strip_blank (t : list N) :
  Forall (fun c => Text.is_whitespace c = true) t -> Text.strip t = [].
Proof.
  intros Hblank.
  destruct (strip_split t) as (before & after & Heq & _ & _ & Hhead & _).
  destruct (Text.strip t) as [|c core] eqn:Hcore; [reflexivity|].
  specialize (Hhead c eq_refl).
  rewrite Heq in Hblank. apply Forall_app in Hblank as [_ Hblank].
  apply Forall_app in Hblank as [Hblank _].
  apply Forall_cons in Hblank as [Hc _]. congruence.
Qed.

Lemma solid_ends_single (core : list N) (c : N) :
  (forall x, head core = Some x -> Text.is_whitespace x = false) ->
  (forall x, last core = Some x -> Text.is_whitespace x = false) ->
  filter (fun x => Text.is_whitespace x = false) core = [c] ->
  core = [c].
Proof.
  intros Hhead Hlast Hfilter. destruct core as [|x rest]; [discriminate|].
  specialize (Hhead x eq_refl).
  rewrite filter_cons_True in Hfilter by exact Hhead.
  injection Hfilter as -> Hrest. f_equal.
  destruct rest as [|y rest]; [reflexivity|]. exfalso.
  destruct (last (y :: rest)) as [z|] eqn:Hz.
  - assert (z ∈ filter (fun x => Text.is_whitespace x = false) (y :: rest))
      as Hin.
    { apply list_elem_of_filter. split.
      - apply Hlast. rewrite last_cons, Hz. reflexivity.
      - apply last_Some_elem_of. exact Hz. }
    rewrite Hrest in Hin. apply elem_of_nil in Hin. exact Hin.
  - apply last_None in Hz. discriminate.
Qed.

(** ** Fields of an item *)

(** X20: [extract_text] falls back to the default only for a missing or
    empty text.  A text made of whitespace alone is truthy, so it gives
    the empty string, not the default.  Any other text comes back without
    the whitespace around it: the result begins and ends with a visible
    character and holds the same visible characters as the text. *)
Theorem extract_text_cases (default_value : list N) :
  extract_text None default_value = default_value
  /\ extract_text (Some []) default_value = default_value
  /\ (forall t : list N,
        t <> [] ->
        Forall (fun c => Text.is_whitespace c = true) t ->
        extract_text (Some t) default_value = [])
  /\ (forall t : list N,
        t <> [] ->
        let cleaned := extract_text (Some t) default_value : list N in
        (exists before after,
           t = before ++ cleaned ++ after
           /\ Forall (fun c => Text.is_whitespace c = true) before
           /\ Forall (fun c => Text.is_whitespace c = true) after)
        /\ (forall c, head cleaned = Some c -> Text.is_whitespace c = false)
        /\ (forall c, last cleaned = Some c -> Text.is_whitespace c = false)).
Proof.
  split; [reflexivity|]. split; [reflexivity|]. split.
  - intros t Hne Hblank. destruct t as [|c t]; [congruence|].
    cbn [extract_text Text.nonempty]. apply strip_blank. exact Hblank.
  - intros t Hne cleaned.
    assert (cleaned = Text.strip t) as ->
      by (unfold cleaned; destruct t; [congruence|reflexivity]).
    destruct (strip_split t) as (before & after & Heq & Hb & Ha & Hh & Hl).
    split; [exists before, after; auto|]. split; assumption.
Qed.

Lemma kept_description_facts (t : list N) :
  kept_description t = true ->
  let compact := filter (fun c => Text.is_whitespace c = false) t in
  compact <> []
  /\ compact <> Text.lit "-"
  /\ compact <> Text.lit "/".
Proof.
  intros Hkept compact. unfold kept_description in Hkept.
  apply andb_true_iff in Hkept as [Hsome Hnot].
  apply negb_true_iff, bool_decide_eq_false in Hnot.
  destruct (strip_split t) as (_ & _ & _ & _ & _ & Hhead & Hlast).
  assert (compact = filter (fun c => Text.is_whitespace c = false)
                      (Text.strip t : list N)) as Hcompact
    by (symmetry; apply filter_strip).
  split; [|split].
  - rewrite Hcompact. destruct (Text.strip t) as [|c core]; [discriminate|].
    rewrite filter_cons_True by (apply Hhead; reflexivity). discriminate.
  - intros Heq. apply Hnot. rewrite Hcompact in Heq.
    rewrite (solid_ends_single _ _ Hhead Hlast Heq).
    apply list_elem_of_here.
  - intros Heq. apply Hnot. rewrite Hcompact in Heq.
    rewrite (solid_ends_single _ _ Hhead Hlast Heq).
    apply list_elem_of_further, list_elem_of_here.
Qed.

(** X21: the description list of an item holds, in page order, the text
    nodes that are neither blank nor a lone dash or slash once stripped,
    each with every whitespace character removed.  So no entry is empty,
    no entry contains whitespace, none is [-] or [/], and there are at
    most as many entries as text nodes. *)
Theorem descriptions_are_compacted (house : House) :
  extract_descriptions house
    = filter (fun c => Text.is_whitespace c = false)
        <$> filter kept_description (des_texts house)
  /\ Forall (fun d : list N =>
              d <> []
              /\ Forall (fun c => Text.is_whitespace c = false) d
              /\ d <> Text.lit "-" /\ d <> Text.lit "/")
       (extract_descriptions house)
  /\ (length (extract_descriptions house) <= length (des_texts house))%nat.
Proof.
  assert (extract_descriptions house
          = filter (fun c => Text.is_whitespace c = false)
              <$> filter kept_description (des_texts house)) as Heq.
  { unfold extract_descriptions. apply list_fmap_ext.
    intros _ t _. apply join_split. }
  split; [exact Heq|]. split.
  - rewrite Heq. apply Forall_fmap, Forall_forall. intros t Ht.
    apply list_elem_of_filter in Ht as [Hkept _].
    apply Is_true_true in Hkept.
    destruct (kept_description_facts t Hkept) as (Hne & Hdash & Hslash).
    cbn. repeat split; try assumption.
    apply Forall_forall. intros c Hc.
    apply list_elem_of_filter in Hc as [Hc _]. exact Hc.
  - rewrite Heq, length_fmap. apply length_filter.
Qed.

(** X22: the tag list of an item holds, in page order, the tag texts that
    are not blank, each stripped: every entry is non-empty and begins and
    ends with a visible character, and there are at most as many entries
    as tag nodes. *)
Theorem bottom_tags_are_stripped (house : House) :
  extract_bottom_info house
    = Text.strip
        <$> filter (fun t => Text.nonempty (Text.strip t))
              (bottom_texts house)
  /\ Forall (fun b : list N =>
              b <> []
              /\ (forall c, head b = Some c -> Text.is_whitespace c = false)
              /\ (forall c, last b = Some c -> Text.is_whitespace c = false))
       (extract_bottom_info house)
  /\ (length (extract_bottom_info house) <= length (bottom_texts house))%nat.
Proof.
  assert (extract_bottom_info house
          = Text.strip
              <$> filter (fun t => Text.nonempty (Text.strip t))
                    (bottom_texts house)) as Heq.
  { unfold extract_bottom_info.
    destruct (Text.strip <$> filter _ (bottom_texts house)); reflexivity. }
  split; [exact Heq|]. split.
  - rewrite Heq. apply Forall_fmap, Forall_forall. intros t Ht.
    apply list_elem_of_filter in Ht as [Hsome _].
    apply Is_true_true in Hsome.
    destruct (strip_split t) as (_ & _ & _ & _ & _ & Hhead & Hlast).
    cbn. repeat split; try assumption.
    destruct (Text.strip t); [discriminate|discriminate].
  - rewrite Heq, length_fmap. apply length_filter.
Qed.

Lemma extract_text_solid (found : option (list N)) :
  let field := extract_text found (Text.lit "N/A") : list N in
  (forall c, head field = Some c -> Text.is_whitespace c = false)
  /\ (forall c, last field = Some c -> Text.is_whitespace c = false).
Proof.
  intros field.
  assert (field = Text.lit "N/A" \/ exists t, field = Text.strip t) as [->|[t ->]].
  { unfold field, extract_text. destruct found as [[|c t]|]; eauto. }
  - split; intros c [= <-]; reflexivity.
  - destruct (strip_split t) as (_ & _ & _ & _ & _ & Hhead & Hlast).
    split; assumption.
Qed.

(** X23: [parse_data] logs one line and then yields exactly one item per
    listing element of the page, in page order, each built from that
    element alone; it never raises, and a page without listing elements
    yields nothing.  In every item the title, source and price neither
    begin nor end with whitespace. *)
Theorem parse_data_one_item_per_house (response : ListingPage) :
  parse_data response =
    (DataLog INFO ("从页面提取数据: " +:+ page_url response)
       :: ((fun house =>
              YieldItem
                {| title := extract_text (title_text house) (Text.lit "N/A");
                   info := extract_descriptions house;
                   bottom := extract_bottom_info house;
                   source := extract_text (brand_text house) (Text.lit "N/A");
                   price := extract_text (price_text house) (Text.lit "N/A") |})
             <$> houses response),
     Ret tt)
  /\ length (parse_data response).1 = S (length (houses response))
  /\ Forall (fun e => forall item, e = YieldItem item ->
               Forall (fun field : list N =>
                         (forall c, head field = Some c ->
                            Text.is_whitespace c = false)
                         /\ (forall c, last field = Some c ->
                               Text.is_whitespace c = false))
                 [title item; source item; price item])
       (parse_data response).1.
Proof.
  assert (parse_data response =
    (DataLog INFO ("从页面提取数据: " +:+ page_url response)
       :: ((fun house => YieldItem (make_item house)) <$> houses response),
     Ret tt)) as Heq.
  { unfold parse_data. rewrite for_each_emit. reflexivity. }
  split; [exact Heq|]. rewrite Heq. cbn [fst length]. split.
  - rewrite length_fmap. reflexivity.
  - apply Forall_cons_2; [intros item [=]|].
    apply Forall_fmap, Forall_true. intros house item [= <-].
    cbn [make_item title source price].
    repeat (apply Forall_cons_2; [apply extract_text_solid|]).
    apply Forall_nil_2.
Qed.

(** ** Concrete runs of the extraction and of the egress middlewares *)

Example strip_knows_wide_space :
  Text.strip ([12288; 32]%N ++ Text.lit "3 rooms" ++ [160; 10]%N)
    = Text.lit "3 rooms".
Proof. reflexivity. Qed.

Example split_drops_all_blanks :
  Text.split (Text.lit "  58.00 m2 /  south ")
    = [Text.lit "58.00"; Text.lit "m2"; Text.lit "/"; Text.lit "south"].
Proof. reflexivity. Qed.

Example one_listing_page :
  parse_data
    {| page_url := "https://tj.lianjia.com/zufang/hexi/pg1/";
       houses :=
         [{| title_text := Some (10%N :: Text.lit "   Sunny flat  ");
             des_texts := [Text.lit " hexi "; Text.lit " - "; Text.lit "/";
                           Text.lit " 58 m2 "; Text.lit "   "];
             bottom_texts := [Text.lit " lift "; Text.lit " "];
             brand_text := None;
             price_text := Some (Text.lit " ") |}] |}
  = ([DataLog INFO "从页面提取数据: https://tj.lianjia.com/zufang/hexi/pg1/";
      YieldItem {| title := Text.lit "Sunny flat";
                   info := [Text.lit "hexi"; Text.lit "58m2"];
                   bottom := [Text.lit "lift"];
                   source := Text.lit "N/A";
                   price := [] |}],
     Ret tt).
Proof. reflexivity. Qed.

Example empty_pool_uses_built_in_proxy :
  handle_request_with_proxy
    (new_proxy_middleware "http://proxy.invalid:8000" (Some []) None)
    5%nat city_request
  = Some ([Log INFO "Using Proxy: http://proxy.invalid:8000"],
          Ret (set_meta city_request "proxy"
                 (PStr "http://proxy.invalid:8000"))).
Proof. reflexivity. Qed.

Example force_close_flag_closes :
  modify_connection_header
    (set_meta city_request "force_close" (PInt 1)) ∅
  = ([Log INFO "Connection header forcibly set to 'close' for URL: https://tj.lianjia.com/zufang/"],
     Ret {["Connection" := "close"]}).
Proof. reflexivity. Qed.
